(** * FlaskTest: transaction lifecycle and expiry sweep of [app.py]

    A shallow embedding of the three API handlers ([create_transaction],
    [cancel_transaction], [check_transaction]) and of the Celery task
    [check_pending_transactions], over a model of the two tables, of the
    ORM session (staged inserts, dirty rows, commit) and of the outbound
    webhook requests. *)

From Stdlib Require Import ZArith String List PrimFloat Lia.
From stdpp Require Import gmap strings list fin_maps sorting.
Import ListNotations.

Local Open Scope string_scope.
Local Open Scope list_scope.
Local Open Scope Z_scope.

(** ** The two tables (lines 31-45)

    A column is nullable unless it is the primary key or is declared with
    [nullable=False]; a nullable column is an [option].  [db.Float] is a
    binary64 number, [db.DateTime] is a naive UTC instant counted here in
    microseconds (the resolution of Python's [datetime]). *)

Record User := mkUser {
  balance : option float;
  commission_rate : option float;
  webhook_url : option string;
  role : option string;
  usdt_wallet : option string
}.

Record Transaction := mkTransaction {
  amount : float;
  commission : float;
  status : option string;
  created_at : option Z;
  user_id : option Z
}.

(** Rows are keyed by their integer primary key [id]. *)
Record Database := mkDatabase {
  users : gmap Z User;
  transactions : gmap Z Transaction
}.

Definition set_status (s : option string) (t : Transaction) : Transaction :=
  mkTransaction (amount t) (commission t) s (created_at t) (user_id t).

(** ** Python values that leave the process *)

#[warnings="-register-all"]
Inductive Json :=
| JNull
| JInt (n : Z)
| JStr (s : string)
| JObj (fields : list (string * Json)).

Definition json_of_str (o : option string) : Json :=
  match o with Some s => JStr s | None => JNull end.

(** A Flask response: [jsonify(d), code]; a bare [jsonify(d)] is a 200. *)
Record Response := mkResponse { body : Json; code : Z }.

Definition jsonify (fields : list (string * Json)) : Json := JObj fields.

Inductive PyExc :=
| AttributeError
| TypeError
| IntegrityError
| ObjectDeletedError
| RequestException
| OverflowError
| OperationalError.

Inductive Result (A : Type) :=
| Ok (a : A)
| Raise (e : PyExc).
Arguments Ok {A} a.
Arguments Raise {A} e.

(** ** Observable effects: commits and outbound requests, in program order *)

Inductive Event :=
| EvCommit (snapshot : Database)
| EvPost (url : string) (payload : Json).

(** ** The ORM session

    [Transaction(...)] builds a transient object whose unset columns are
    filled by the column defaults when the row is inserted. *)

Record Transient := mkTransient {
  t_amount : option float;
  t_commission : option float;
  t_user_id : option Z
}.

Record Session := mkSession {
  staged : list Transient;        (* db.session.add, not yet flushed *)
  inserted : list Z;              (* primary keys given to the added objects *)
  dirty : gmap Z Transaction      (* loaded rows with an attribute assigned *)
}.

Definition empty_session : Session := mkSession [] [] ∅.

Record World := mkWorld {
  clock : Z;                      (* datetime.utcnow(), microseconds *)
  database : Database;            (* what has been committed *)
  session : Session;
  trace : list Event
}.

(** ** A state monad that keeps the world when an exception is raised *)

Definition M (A : Type) : Type := World -> Result A * World.

Definition ret {A} (a : A) : M A := fun w => (Ok a, w).
Definition raise {A} (e : PyExc) : M A := fun w => (Raise e, w).
Definition bind {A B} (m : M A) (k : A -> M B) : M B :=
  fun w => match m w with
           | (Ok a, w') => k a w'
           | (Raise e, w') => (Raise e, w')
           end.
Definition lift {A} (r : Result A) : M A := fun w => (r, w).

Notation "x <- m ;; k" := (bind m (fun x => k))
  (at level 100, m at next level, right associativity).
Notation "m ;;; k" := (bind m (fun _ => k))
  (at level 100, right associativity).

(** The rows as the session sees them: an assigned attribute shadows the
    committed row until the next commit. *)
Definition view (w : World) : gmap Z Transaction :=
  dirty (session w) ∪ transactions (database w).

(** The integers SQLite stores and sqlite3 binds: signed, 64 bits. *)
Definition int64 (i : Z) : bool := (- 2 ^ 63 <=? i) && (i <? 2 ^ 63).

(** [Model.query.get(pk)] for a key that is a Python integer or [None]:
    [None] for the key [None]; the row when the table holds the key (a
    stored key is a 64-bit integer); for a key the table does not hold,
    [None] when it is a 64-bit integer and OverflowError when it is not,
    since sqlite3 cannot bind it. *)
Definition User_query_get (pk : option Z) : M (option User) :=
  fun w =>
    match pk with
    | None => (Ok None, w)
    | Some i =>
        match users (database w) !! i with
        | Some u => (Ok (Some u), w)
        | None => (if int64 i then Ok None else Raise OverflowError, w)
        end
    end.

(** A loaded transaction is referred to by its primary key; its attributes
    are read through the session. *)
Definition Transaction_query_get (pk : option Z) : M (option Z) :=
  fun w =>
    match pk with
    | None => (Ok None, w)
    | Some i =>
        match view w !! i with
        | Some _ => (Ok (Some i), w)
        | None => (if int64 i then Ok None else Raise OverflowError, w)
        end
    end.

(** [Transaction.query.get(pk)] for a key that arrives as text (a query
    parameter): the text is bound as it is and compared by the engine, so
    a key no row has is simply not found. *)
Definition Transaction_query_get_text (pk : option Z) : M (option Z) :=
  fun w => (Ok (pk ≫= fun i => const i <$> view w !! i), w).

Definition getattr_row {A} (f : Transaction -> A) (t : Z) : M A :=
  fun w => match view w !! t with
           | Some row => (Ok (f row), w)
           | None => (Raise ObjectDeletedError, w)
           end.

(** [transaction.status = s] *)
Definition setattr_status (t : Z) (s : option string) : M unit :=
  fun w => match view w !! t with
           | Some row =>
               (Ok tt, mkWorld (clock w) (database w)
                         (mkSession (staged (session w)) (inserted (session w))
                                    (<[t := set_status s row]> (dirty (session w))))
                         (trace w))
           | None => (Raise ObjectDeletedError, w)
           end.

(** [db.session.add(obj)]: the object is the n-th one added. *)
Definition session_add (o : Transient) : M nat :=
  fun w => (Ok (length (inserted (session w)) + length (staged (session w)))%nat,
            mkWorld (clock w) (database w)
              (mkSession (staged (session w) ++ [o]) (inserted (session w))
                         (dirty (session w)))
              (trace w)).

(** SQLite gives a row of an INTEGER PRIMARY KEY table the largest key in
    use plus one, and 1 in an empty table. *)
Definition max_key {V} (m : gmap Z V) : option Z :=
  map_fold (fun k _ acc => Some (match acc with
                                 | None => k
                                 | Some a => Z.max a k
                                 end)) None m.

Definition next_id {V} (m : gmap Z V) : Z :=
  match max_key m with
  | None => 1
  | Some k => k + 1
  end.

(** The largest rowid.  Once it is in use the engine tries rowids at random
    and the INSERT may fail with SQLITE_FULL; the model takes that outcome,
    so it names a key only while the largest key is below the limit. *)
Definition rowid_max : Z := 2 ^ 63 - 1.

Definition rowid_free {V} (m : gmap Z V) : bool :=
  match max_key m with
  | None => true
  | Some k => k <? rowid_max
  end.

(** What a Float column holds after a value was bound to it: SQLite turns
    NaN into NULL, and reads a negative zero back as zero (a REAL without
    fraction is stored as an integer); every other value is kept. *)
Definition sqlite_real (x : float) : option float :=
  if PrimFloat.is_nan x then None
  else if PrimFloat.is_zero x then Some 0%float
  else Some x.

(** One INSERT: [amount] and [commission] are NOT NULL; [status] defaults
    to ['pending'] (line 43) and [created_at] to [datetime.utcnow] (line 44). *)
Definition insert_row (now : Z) (o : Transient) (txs : gmap Z Transaction)
  : Result (Z * gmap Z Transaction) :=
  match t_amount o ≫= sqlite_real, t_commission o ≫= sqlite_real with
  | Some a, Some c =>
      if rowid_free txs
      then
        let i := next_id txs in
        Ok (i, <[i := mkTransaction a c (Some "pending") (Some now) (t_user_id o)]> txs)
      else Raise OperationalError
  | _, _ => Raise IntegrityError
  end.

Fixpoint flush_staged (now : Z) (os : list Transient) (txs : gmap Z Transaction)
  : Result (list Z * gmap Z Transaction) :=
  match os with
  | [] => Ok ([], txs)
  | o :: os' =>
      match insert_row now o txs with
      | Raise e => Raise e
      | Ok (i, txs') =>
          match flush_staged now os' txs' with
          | Raise e => Raise e
          | Ok (ks, txs'') => Ok (i :: ks, txs'')
          end
      end
  end.

(** [db.session.commit()]: write the dirty rows, insert the staged objects,
    make the result durable.  A failed flush rolls the session back. *)
Definition session_commit : M unit :=
  fun w =>
    match flush_staged (clock w) (staged (session w)) (view w) with
    | Ok (ids, txs) =>
        let d := mkDatabase (users (database w)) txs in
        (Ok tt, mkWorld (clock w) d
                  (mkSession [] (inserted (session w) ++ ids) ∅)
                  (trace w ++ [EvCommit d]))
    | Raise e =>
        (Raise e, mkWorld (clock w) (database w) empty_session (trace w))
    end.

(** [obj.id] of the n-th added object, after the commit. *)
Definition added_id (n : nat) : M Z :=
  fun w => match inserted (session w) !! n with
           | Some i => (Ok i, w)
           | None => (Raise ObjectDeletedError, w)
           end.

(** ** Names and attributes the handlers resolve at run time

    Line 11 is [from datetime import datetime, timedelta]: the global name
    [datetime] is the class.  Only the two attribute names the source
    looks up on it are modelled. *)

Inductive PyObject :=
| datetime_module
| datetime_class
| utcnow_method.

Inductive AttrName :=
| a_datetime
| a_utcnow.

Definition getattr (o : PyObject) (a : AttrName) : Result PyObject :=
  match o, a with
  | datetime_module, a_datetime => Ok datetime_class
  | datetime_class, a_utcnow => Ok utcnow_method
  | _, _ => Raise AttributeError
  end.

(** A call without arguments. *)
Definition call (o : PyObject) : M Z :=
  match o with
  | utcnow_method => fun w => (Ok (clock w), w)
  | _ => raise TypeError
  end.

(** What the module binds and declares around the task. *)
Record Setup := mkSetup {
  datetime_name : PyObject;     (* the object the global [datetime] names *)
  user_relationship : bool      (* whether Transaction has a [user] relationship *)
}.

(** Line 11 binds the class; lines 31-45 declare the foreign key column
    [user_id] and no [db.relationship]. *)
Definition source_setup : Setup := mkSetup datetime_class false.

(** [x * y] on floats; [None] on either side is a TypeError. *)
Definition py_mul (x y : option float) : Result float :=
  match x, y with
  | Some a, Some b => Ok (PrimFloat.mul a b)
  | _, _ => Raise TypeError
  end.

(** [now - created_at], in microseconds. *)
Definition datetime_sub (now : Z) (t : option Z) : Result Z :=
  match t with
  | Some c => Ok (now - c)
  | None => Raise TypeError
  end.

(** [delta.total_seconds() > secs] for a whole number of seconds: the
    quotient by 10^6 is correctly rounded and is more than a microsecond
    away from [secs] unless it equals it, so the test is exact on the
    microsecond count. *)
Definition total_seconds_gt (delta secs : Z) : bool := secs * 1000000 <? delta.

(** Truth value of a nullable string column. *)
Definition truthy (o : option string) : bool :=
  match o with
  | Some s => negb (String.eqb s "")
  | None => false
  end.

(** [transaction.user]: resolved through the relationship when one is
    declared, an AttributeError otherwise. *)
Definition Transaction_user (S : Setup) (t : Z) : M (option User) :=
  if user_relationship S
  then (uid <- getattr_row user_id t ;; User_query_get uid)
  else raise AttributeError.

(** [.webhook_url] on the result: [None] has no such attribute. *)
Definition getattr_webhook_url (u : option User) : M (option string) :=
  match u with
  | Some u => ret (webhook_url u)
  | None => raise AttributeError
  end.

(** [requests.post(url, json=payload)]: the request is issued; [net] says
    whether the call returns or raises. *)
Definition requests_post (net : string -> bool) (url : option string)
    (payload : Json) : M unit :=
  fun w =>
    match url with
    | Some u =>
        (if net u then Ok tt else Raise RequestException,
         mkWorld (clock w) (database w) (session w) (trace w ++ [EvPost u payload]))
    | None => (Raise RequestException, w)
    end.

(** ** API routes *)

(** [create_transaction], lines 121-132.  [data.get(k)] is [None] for a
    missing key; [user_id] is an integer and [amount] a number, as the
    route documents them, the number being the binary64 value Python
    multiplies with. *)
Definition create_transaction (user_id : option Z) (amount : option float)
  : M Response :=
  user <- User_query_get user_id ;;
  match user with
  | None => ret (mkResponse (jsonify [("error", JStr "User not found")]) 404)
  | Some u =>
      commission <- lift (py_mul amount (commission_rate u)) ;;
      transaction <- session_add (mkTransient amount (Some commission) user_id) ;;
      session_commit ;;;
      id <- added_id transaction ;;
      ret (mkResponse (jsonify [("transaction_id", JInt id)]) 201)
  end.

(** [cancel_transaction], lines 161-170. *)
Definition cancel_transaction (transaction_id : option Z) : M Response :=
  transaction <- Transaction_query_get transaction_id ;;
  match transaction with
  | None => ret (mkResponse (jsonify [("error", JStr "Transaction not found")]) 404)
  | Some t =>
      s <- getattr_row status t ;;
      (if decide (s = Some "pending")
       then (setattr_status t (Some "canceled") ;;; session_commit)
       else ret tt) ;;;
      s' <- getattr_row status t ;;
      ret (mkResponse (jsonify [("status", json_of_str s')]) 200)
  end.

(** [check_transaction], lines 197-205; the query parameter is taken as
    the key it denotes, [None] when it is absent. *)
Definition check_transaction (transaction_id : option Z) : M Response :=
  transaction <- Transaction_query_get_text transaction_id ;;
  match transaction with
  | None => ret (mkResponse (jsonify [("error", JStr "Transaction not found")]) 404)
  | Some t =>
      s <- getattr_row status t ;;
      ret (mkResponse (jsonify [("transaction_id", JInt t);
                                ("status", json_of_str s)]) 200)
  end.

(** ** Celery task *)

(** [Transaction.query.filter_by(status='pending').all()]; the query has
    no ORDER BY and SQLite scans the table by ascending rowid. *)
Definition query_pending : M (list Z) :=
  fun w => (Ok (merge_sort Z.le
                  (map fst (map_to_list
                     (filter (fun kv => status kv.2 = Some "pending") (view w))))), w).

(** The body of the loop, lines 213-221. *)
Definition expire_if_stale (S : Setup) (net : string -> bool) (now : Z)
    (transaction : Z) : M unit :=
  created <- getattr_row created_at transaction ;;
  delta <- lift (datetime_sub now created) ;;
  if total_seconds_gt delta 900
  then
    setattr_status transaction (Some "expired") ;;;
    session_commit ;;;
    user <- Transaction_user S transaction ;;
    url <- getattr_webhook_url user ;;
    if truthy url
    then
      user' <- Transaction_user S transaction ;;
      url' <- getattr_webhook_url user' ;;
      s <- getattr_row status transaction ;;
      requests_post net url'
        (jsonify [("transaction_id", JInt transaction);
                  ("status", json_of_str s)])
    else ret tt
  else ret tt.

(** The loop of lines 212-221. *)
Fixpoint sweep_loop (S : Setup) (net : string -> bool) (now : Z)
    (pending_transactions : list Z) : M unit :=
  match pending_transactions with
  | [] => ret tt
  | transaction :: rest =>
      expire_if_stale S net now transaction ;;;
      sweep_loop S net now rest
  end.

(** Lines 210-221 under a given [Setup]. *)
Definition sweep (S : Setup) (net : string -> bool) : M unit :=
  d <- lift (getattr (datetime_name S) a_datetime) ;;
  f <- lift (getattr d a_utcnow) ;;
  now <- call f ;;
  pending_transactions <- query_pending ;;
  sweep_loop S net now pending_transactions.

(** [check_pending_transactions] as the module defines it. *)
Definition check_pending_transactions (net : string -> bool) : M unit :=
  sweep source_setup net.

(** ** Running a handler or a task

    Each request and each task run starts with a fresh session at wall
    clock [now]; what remains is the result (a raised exception is a 500
    for a request and a failed task for Celery), the committed database
    and the effects. *)
Definition run {A} (m : M A) (now : Z) (db : Database)
  : Result A * Database * list Event :=
  let '(r, w) := m (mkWorld now db empty_session []) in
  (r, database w, trace w).

Definition result_of {A} (o : Result A * Database * list Event) : Result A := o.1.1.
Definition db_of {A} (o : Result A * Database * list Event) : Database := o.1.2.
Definition trace_of {A} (o : Result A * Database * list Event) : list Event := o.2.

(** The operations of the service. *)
Inductive Op :=
| OpCreate (user_id : option Z) (amount : option float)
| OpCancel (transaction_id : option Z)
| OpCheck (transaction_id : option Z)
| OpSweep (net : string -> bool).

Definition exec (S : Setup) (op : Op) (now : Z) (db : Database) : Database :=
  match op with
  | OpCreate u a => db_of (run (create_transaction u a) now db)
  | OpCancel t => db_of (run (cancel_transaction t) now db)
  | OpCheck t => db_of (run (check_transaction t) now db)
  | OpSweep net => db_of (run (sweep S net) now db)
  end.

(** ** CLI command *)




(** ** Vocabulary of the statements *)

(** Instants are counted in microseconds. *)
Definition second : Z := 1000000.

Definition idle (w : World) : Prop :=
  staged (session w) = [] /\ dirty (session w) = ∅.

(** The world right after a commit that left [txs] in the table. *)
Definition committed (w : World) (txs : gmap Z Transaction) : World :=
  let d := mkDatabase (users (database w)) txs in
  mkWorld (clock w) d (mkSession [] (inserted (session w)) ∅)
          (trace w ++ [EvCommit d]).

(** The world after [transaction.status = s] on an idle session. *)
Definition assigned (w : World) (t : Z) (row : Transaction) : World :=
  mkWorld (clock w) (database w)
          (mkSession [] (inserted (session w)) {[ t := row ]}) (trace w).

(** The world after [db.session.add(o)] on a fresh session. *)
Definition added (w : World) (o : Transient) : World :=
  mkWorld (clock w) (database w) (mkSession [o] [] ∅) (trace w).

Definition not_found (msg : string) : Response :=
  mkResponse (jsonify [("error", JStr msg)]) 404.

(** The table after one row was inserted by [create_transaction]. *)
Definition with_new_row (db : Database) (now : Z) (a c : float) (uid : option Z)
  : Database :=
  mkDatabase (users db)
    (<[next_id (transactions db) :=
         mkTransaction a c (Some "pending") (Some now) uid]> (transactions db)).

(** The table after the status of row [i] was rewritten. *)
Definition with_status (db : Database) (i : Z) (s : string) (t : Transaction)
  : Database :=
  mkDatabase (users db) (<[i := set_status (Some s) t]> (transactions db)).

Definition expired_payload (i : Z) : Json :=
  jsonify [("transaction_id", JInt i); ("status", JStr "expired")].

(** The world after a request was issued. *)
Definition posted (w : World) (url : string) (payload : Json) : World :=
  mkWorld (clock w) (database w) (session w) (trace w ++ [EvPost url payload]).

(** A row is stale at [now] when more than 900 seconds passed since it
    was created. *)
Definition stale (now : Z) (t : Transaction) : Prop :=
  exists c, created_at t = Some c /\ 900 * second < now - c.

(** How the row with key [i] may differ after the rows [ids] were visited
    at [now]. *)
Definition swept (now : Z) (ids : list Z) (i : Z) (o o' : option Transaction)
  : Prop :=
  o' = o \/
  (i ∈ ids /\ exists t, o = Some t /\ stale now t /\
                        o' = Some (set_status (Some "expired") t)).

(** Every request in [evs] directly follows the commit that stored its
    transaction as expired, and goes to the owner's webhook. *)
Definition announced (ids : list Z) (db : Database) (evs : list Event) : Prop :=
  forall pre url payload post,
    evs = pre ++ EvPost url payload :: post ->
    exists pre' snap i t uid u,
      pre = pre' ++ [EvCommit snap] /\ payload = expired_payload i /\
      i ∈ ids /\ transactions db !! i = Some t /\
      transactions snap !! i = Some (set_status (Some "expired") t) /\
      user_id t = Some uid /\ users db !! uid = Some u /\
      webhook_url u = Some url.

Definition sweeps (now : Z) (ids : list Z) (w w' : World) : Prop :=
  idle w' /\
  users (database w') = users (database w) /\
  (forall i, swept now ids i (transactions (database w) !! i)
                             (transactions (database w') !! i)) /\
  exists evs, trace w' = trace w ++ evs /\ announced ids (database w) evs.

Definition pending_ids (db : Database) : list Z :=
  merge_sort Z.le
    (map fst (map_to_list
                (filter (fun kv => status kv.2 = Some "pending") (transactions db)))).

(** How an existing row may differ after [op]. *)
Definition row_change (op : Op) (i : Z) (t t' : Transaction) : Prop :=
  t' = t \/
  (status t = Some "pending" /\ t' = set_status (Some "canceled") t /\
   op = OpCancel (Some i)) \/
  (status t = Some "pending" /\ t' = set_status (Some "expired") t /\
   exists net, op = OpSweep net).

Fixpoint exec_all (S : Setup) (ops : list (Op * Z)) (db : Database) : Database :=
  match ops with
  | [] => db
  | (op, now) :: rest => exec_all S rest (exec S op now db)
  end.

(** How a row may differ after any number of operations. *)
Definition lifecycle (t t' : Transaction) : Prop :=
  t' = t \/
  (status t = Some "pending" /\
   (t' = set_status (Some "canceled") t \/ t' = set_status (Some "expired") t)).

Definition valid_status (s : option string) : Prop :=
  s = Some "pending" \/ s = Some "confirmed" \/
  s = Some "canceled" \/ s = Some "expired".

Definition terminal (s : option string) : Prop :=
  s = Some "confirmed" \/ s = Some "canceled" \/ s = Some "expired".

Definition all_valid (db : Database) : Prop :=
  forall i t, transactions db !! i = Some t -> valid_status (status t).

(** Repeated cancels of one transaction, each at its own time: the
    answers, and the database left by the last one. *)
Fixpoint cancel_repeatedly (i : Z) (times : list Z) (db : Database)
  : list (Result Response) * Database :=
  match times with
  | [] => ([], db)
  | now :: rest =>
      let o := run (cancel_transaction (Some i)) now db in
      let '(answers, db') := cancel_repeatedly i rest (db_of o) in
      (result_of o :: answers, db')
  end.

Definition ok_status (s : string) : Result Response :=
  Ok (mkResponse (jsonify [("status", JStr s)]) 200).


(** The transaction a request names in its [transaction_id] field. *)
Definition post_id (e : Event) : option Z :=
  match e with
  | EvPost _ (JObj ((k, JInt i) :: _)) =>
      if String.eqb k "transaction_id" then Some i else None
  | _ => None
  end.

(** The transactions notified in a trace, in the order of the requests. *)
Definition notified (evs : list Event) : list Z := omap post_id evs.

(** What one iteration and the whole loop leave in the trace. *)

Definition traced (now : Z) (ids : list Z) (w w' : World) : Prop :=
  exists evs,
    trace w' = trace w ++ evs /\
    notified evs `sublist_of` ids /\
    forall i, i ∈ notified evs ->
      exists row, transactions (database w) !! i = Some row /\ stale now row.

(** ** Sample data *)

Definition alice : User :=
  mkUser (Some 0%float) (Some 0.25%float) (Some "http://hook") (Some "user") None.
Definition tx0 : Transaction :=
  mkTransaction 100%float 25%float (Some "pending") (Some 0) (Some 1).
Definition db0 : Database := mkDatabase {[ 1 := alice ]} {[ 1 := tx0 ]}.
Definition online : string -> bool := fun _ => true.

Definition tx_confirmed : Transaction :=
  mkTransaction 8%float 2%float (Some "confirmed") (Some 0) (Some 1).
Definition tx_canceled : Transaction :=
  mkTransaction 4%float 1%float (Some "canceled") (Some 0) (Some 1).
Definition tx_expired : Transaction :=
  mkTransaction 16%float 4%float (Some "expired") (Some 0) (Some 1).

(** One row in each status. *)
Definition db1 : Database :=
  mkDatabase {[ 1 := alice ]}
    (<[ 4 := tx_expired ]> (<[ 3 := tx_canceled ]>
       (<[ 2 := tx_confirmed ]> {[ 1 := tx0 ]}))).

(** A user whose commission rate is NULL. *)
Definition bob : User := mkUser None None None (Some "user") None.
Definition db2 : Database := mkDatabase (<[ 2 := bob ]> {[ 1 := alice ]}) ∅.

(** * Lemmas *)

(** ** Basic facts about the session and the key allocator *)

Lemma view_idle w : idle w -> view w = transactions (database w).
Proof.
  intros [_ Hd]. unfold view. rewrite Hd. apply (left_id_L ∅ (∪)).
Qed.

Lemma max_key_bound {V} (m : gmap Z V) k v :
  m !! k = Some v -> exists x, max_key m = Some x /\ k <= x.
Proof.
  unfold max_key. revert k v.
  apply (map_fold_weak_ind
           (fun r (m : gmap Z V) =>
              forall k v, m !! k = Some v -> exists x, r = Some x /\ k <= x)).
  - intros k v H. rewrite lookup_empty in H. discriminate.
  - intros i x m' r Hi IH k v H.
    destruct (decide (i = k)) as [->|Hne].
    + destruct r as [a|]; eexists; split; try reflexivity; lia.
    + rewrite lookup_insert_ne in H by exact Hne.
      destruct (IH k v H) as (a & -> & Hle).
      eexists; split; [reflexivity | lia].
Qed.

Lemma next_id_fresh {V} (m : gmap Z V) : m !! next_id m = None.
Proof.
  destruct (m !! next_id m) as [v|] eqn:E; [|reflexivity].
  destruct (max_key_bound _ _ _ E) as (x & Hx & Hle).
  unfold next_id in Hle. rewrite Hx in Hle. lia.
Qed.



(** ** The monad's equations *)

Lemma bind_ok {A B} (m : M A) (k : A -> M B) w a w' :
  m w = (Ok a, w') -> bind m k w = k a w'.
Proof. intros H. unfold bind. rewrite H. reflexivity. Qed.

Lemma bind_raise {A B} (m : M A) (k : A -> M B) w e w' :
  m w = (Raise e, w') -> bind m k w = (Raise e, w').
Proof. intros H. unfold bind. rewrite H. reflexivity. Qed.

Lemma bind_inv {A B} (m : M A) (k : A -> M B) w r w' :
  bind m k w = (r, w') ->
  (exists a w1, m w = (Ok a, w1) /\ k a w1 = (r, w')) \/
  (exists e, m w = (Raise e, w') /\ r = Raise e).
Proof.
  unfold bind. destruct (m w) as [[a|e] w1]; intros H.
  - left. eauto.
  - right. inversion H; subst. eauto.
Qed.

(** Run the first action of a sequence, given the equation for it. *)
Tactic Notation "step" "by" tactic3(t) := erewrite bind_ok by t.
Tactic Notation "step" "in" hyp(H) "by" tactic3(t) := erewrite bind_ok in H by t.
Tactic Notation "stop" "in" hyp(H) "by" tactic3(t) := erewrite bind_raise in H by t.

(** ** The ORM primitives on an idle session *)

Lemma idle_committed w txs : idle (committed w txs).
Proof. split; reflexivity. Qed.

Lemma idle_start now db tr : idle (mkWorld now db empty_session tr).
Proof. split; reflexivity. Qed.

Lemma Transaction_query_get_idle w pk :
  idle w ->
  Transaction_query_get pk w =
    match pk with
    | None => (Ok None, w)
    | Some i =>
        match transactions (database w) !! i with
        | Some _ => (Ok (Some i), w)
        | None => (if int64 i then Ok None else Raise OverflowError, w)
        end
    end.
Proof.
  intros Hw. unfold Transaction_query_get. rewrite (view_idle w Hw). reflexivity.
Qed.

Lemma Transaction_query_get_found w i row :
  idle w -> transactions (database w) !! i = Some row ->
  Transaction_query_get (Some i) w = (Ok (Some i), w).
Proof.
  intros Hw H. rewrite (Transaction_query_get_idle w (Some i) Hw), H. reflexivity.
Qed.

Lemma Transaction_query_get_text_idle w pk :
  idle w ->
  Transaction_query_get_text pk w =
    (Ok (pk ≫= fun i => const i <$> transactions (database w) !! i), w).
Proof.
  intros Hw. unfold Transaction_query_get_text. rewrite (view_idle w Hw).
  reflexivity.
Qed.

Lemma User_query_get_found w i u :
  users (database w) !! i = Some u -> User_query_get (Some i) w = (Ok (Some u), w).
Proof. intros H. unfold User_query_get. rewrite H. reflexivity. Qed.

Lemma getattr_row_idle {A} (f : Transaction -> A) t w row :
  idle w -> transactions (database w) !! t = Some row ->
  getattr_row f t w = (Ok (f row), w).
Proof.
  intros Hw H. unfold getattr_row. rewrite (view_idle w Hw), H. reflexivity.
Qed.

Lemma setattr_status_idle t s w row :
  idle w -> transactions (database w) !! t = Some row ->
  setattr_status t s w = (Ok tt, assigned w t (set_status s row)).
Proof.
  intros Hw H. pose proof (view_idle w Hw) as Hv.
  destruct w as [c d [st ins dr] tr]. destruct Hw as [Hst Hdr].
  simpl in *. subst st dr.
  unfold setattr_status. rewrite Hv, H. reflexivity.
Qed.

Lemma session_commit_assigned t w row :
  session_commit (assigned w t row) =
    (Ok tt, committed w (<[t := row]> (transactions (database w)))).
Proof.
  unfold session_commit, assigned, committed, view. simpl.
  rewrite <- insert_union_singleton_l, app_nil_r. reflexivity.
Qed.

Lemma session_add_fresh o w :
  session w = empty_session -> session_add o w = (Ok 0%nat, added w o).
Proof.
  intros Hs. unfold session_add, added. rewrite Hs. reflexivity.
Qed.

Lemma session_commit_added o a c a' c' w :
  t_amount o = Some a -> t_commission o = Some c ->
  sqlite_real a = Some a' -> sqlite_real c = Some c' ->
  rowid_free (transactions (database w)) = true ->
  session_commit (added w o) =
    (Ok tt,
     mkWorld (clock w)
       (mkDatabase (users (database w))
          (<[next_id (transactions (database w)) :=
               mkTransaction a' c' (Some "pending") (Some (clock w)) (t_user_id o)]>
             (transactions (database w))))
       (mkSession [] [next_id (transactions (database w))] ∅)
       (trace w ++
          [EvCommit (mkDatabase (users (database w))
             (<[next_id (transactions (database w)) :=
                  mkTransaction a' c' (Some "pending") (Some (clock w)) (t_user_id o)]>
                (transactions (database w))))])).
Proof.
  intros Ha Hc Ha' Hc' Hfree. unfold session_commit, added, view. simpl.
  rewrite (left_id_L ∅ (∪)). unfold insert_row. rewrite Ha, Hc. simpl.
  rewrite Ha', Hc', Hfree. reflexivity.
Qed.

Lemma session_commit_added_fails o a c w :
  t_amount o = Some a -> t_commission o = Some c ->
  session_commit (added w o) =
    (Raise (match sqlite_real a, sqlite_real c with
            | Some _, Some _ => OperationalError
            | _, _ => IntegrityError
            end),
     mkWorld (clock w) (database w) empty_session (trace w)) \/
  exists a' c', sqlite_real a = Some a' /\ sqlite_real c = Some c' /\
                rowid_free (transactions (database w)) = true.
Proof.
  intros Ha Hc.
  destruct (sqlite_real a) as [a'|] eqn:Ha';
    [destruct (sqlite_real c) as [c'|] eqn:Hc';
       [destruct (rowid_free (transactions (database w))) eqn:Hfree|]|].
  - right. eauto.
  - left. unfold session_commit, added, view. simpl.
    rewrite (left_id_L ∅ (∪)). unfold insert_row. rewrite Ha, Hc. simpl.
    rewrite Ha', Hc', Hfree. reflexivity.
  - left. unfold session_commit, added, view. simpl.
    rewrite (left_id_L ∅ (∪)). unfold insert_row. rewrite Ha, Hc. simpl.
    rewrite Ha', Hc'. reflexivity.
  - left. unfold session_commit, added, view. simpl.
    rewrite (left_id_L ∅ (∪)). unfold insert_row. rewrite Ha, Hc. simpl.
    rewrite Ha'. reflexivity.
Qed.

(** ** What each route does to a freshly opened session *)

Lemma run_create_unknown now db uid amt :
  (forall i, uid = Some i -> users db !! i = None /\ int64 i = true) ->
  run (create_transaction uid amt) now db = (Ok (not_found "User not found"), db, []).
Proof.
  intros H. unfold run, create_transaction, bind, User_query_get. simpl.
  destruct uid as [i|]; [|reflexivity].
  destruct (H i eq_refl) as [-> ->]. reflexivity.
Qed.

Lemma run_create_overflow now db i amt :
  users db !! i = None -> int64 i = false ->
  run (create_transaction (Some i) amt) now db = (Raise OverflowError, db, []).
Proof.
  intros H Hi. unfold run, create_transaction, bind, User_query_get. simpl.
  rewrite H, Hi. reflexivity.
Qed.

Lemma run_create_type_error now db i u amt e :
  users db !! i = Some u ->
  py_mul amt (commission_rate u) = Raise e ->
  run (create_transaction (Some i) amt) now db = (Raise e, db, []).
Proof.
  intros H Hm. unfold run, create_transaction.
  step by (apply User_query_get_found; exact H).
  unfold bind at 1. unfold lift. rewrite Hm. reflexivity.
Qed.

Lemma run_create_known now db i u a r a' c' :
  users db !! i = Some u ->
  commission_rate u = Some r ->
  sqlite_real a = Some a' ->
  sqlite_real (PrimFloat.mul a r) = Some c' ->
  rowid_free (transactions db) = true ->
  run (create_transaction (Some i) (Some a)) now db =
    (Ok (mkResponse (jsonify [("transaction_id", JInt (next_id (transactions db)))]) 201),
     with_new_row db now a' c' (Some i),
     [EvCommit (with_new_row db now a' c' (Some i))]).
Proof.
  intros H Hr Ha Hc Hfree. unfold run, create_transaction.
  step by (apply User_query_get_found; exact H).
  unfold bind at 1. unfold lift, py_mul. rewrite Hr.
  step by (apply session_add_fresh; reflexivity).
  step by (eapply session_commit_added; [reflexivity | reflexivity | eassumption..]).
  reflexivity.
Qed.

Lemma run_create_not_stored now db i u a r :
  users db !! i = Some u ->
  commission_rate u = Some r ->
  sqlite_real a = None \/ sqlite_real (PrimFloat.mul a r) = None \/
  rowid_free (transactions db) = false ->
  exists e, (e = IntegrityError \/ e = OperationalError) /\
            run (create_transaction (Some i) (Some a)) now db = (Raise e, db, []).
Proof.
  intros H Hr Hbad.
  destruct (session_commit_added_fails
              (mkTransient (Some a) (Some (PrimFloat.mul a r)) (Some i))
              a (PrimFloat.mul a r) (mkWorld now db empty_session [])
              eq_refl eq_refl) as [E|(a' & c' & Ha & Hc & Hfree)].
  - eexists. split; cycle 1.
    + unfold run, create_transaction.
      step by (apply User_query_get_found; exact H).
      unfold bind at 1. unfold lift, py_mul. rewrite Hr.
      step by (apply session_add_fresh; reflexivity).
      erewrite bind_raise by exact E. reflexivity.
    + destruct (sqlite_real a), (sqlite_real (PrimFloat.mul a r)); auto.
  - simpl in Hfree. destruct Hbad as [Hb|[Hb|Hb]]; congruence.
Qed.

Lemma run_cancel_missing now db tid :
  (forall i, tid = Some i -> transactions db !! i = None /\ int64 i = true) ->
  run (cancel_transaction tid) now db =
    (Ok (not_found "Transaction not found"), db, []).
Proof.
  intros H. unfold run, cancel_transaction.
  destruct tid as [i|]; [|step by reflexivity; reflexivity].
  destruct (H i eq_refl) as [Hn Hi].
  erewrite bind_ok; cycle 1.
  { rewrite Transaction_query_get_idle by apply idle_start.
    simpl. rewrite Hn, Hi. reflexivity. }
  reflexivity.
Qed.

Lemma run_cancel_overflow now db i :
  transactions db !! i = None -> int64 i = false ->
  run (cancel_transaction (Some i)) now db = (Raise OverflowError, db, []).
Proof.
  intros H Hi. unfold run, cancel_transaction.
  erewrite bind_raise; cycle 1.
  { rewrite Transaction_query_get_idle by apply idle_start.
    simpl. rewrite H, Hi. reflexivity. }
  reflexivity.
Qed.

Lemma run_cancel_pending now db i t :
  transactions db !! i = Some t -> status t = Some "pending" ->
  run (cancel_transaction (Some i)) now db =
    (Ok (mkResponse (jsonify [("status", JStr "canceled")]) 200),
     with_status db i "canceled" t,
     [EvCommit (with_status db i "canceled" t)]).
Proof.
  intros H Hs. unfold run, cancel_transaction.
  step by (eapply Transaction_query_get_found; [apply idle_start | exact H]).
  simpl.
  step by (apply getattr_row_idle; [apply idle_start | exact H]).
  rewrite Hs. destruct (decide _) as [_|n]; [|congruence].
  erewrite bind_ok; cycle 1.
  { step by (apply setattr_status_idle; [apply idle_start | exact H]).
    apply session_commit_assigned. }
  erewrite bind_ok; cycle 1.
  { apply getattr_row_idle; [apply idle_committed |].
    simpl. apply lookup_insert_eq. }
  reflexivity.
Qed.

Lemma run_cancel_other now db i t :
  transactions db !! i = Some t -> status t <> Some "pending" ->
  run (cancel_transaction (Some i)) now db =
    (Ok (mkResponse (jsonify [("status", json_of_str (status t))]) 200), db, []).
Proof.
  intros H Hs. unfold run, cancel_transaction.
  step by (eapply Transaction_query_get_found; [apply idle_start | exact H]).
  simpl.
  step by (apply getattr_row_idle; [apply idle_start | exact H]).
  destruct (decide _) as [e|_]; [congruence|].
  step by reflexivity.
  step by (apply getattr_row_idle; [apply idle_start | exact H]).
  reflexivity.
Qed.

Lemma run_check_missing now db tid :
  (tid ≫= fun i => transactions db !! i) = None ->
  run (check_transaction tid) now db =
    (Ok (not_found "Transaction not found"), db, []).
Proof.
  intros H. unfold run, check_transaction.
  step by (apply Transaction_query_get_text_idle, idle_start).
  simpl. destruct tid as [i|]; simpl in *; [rewrite H|]; reflexivity.
Qed.

Lemma run_check_found now db i t :
  transactions db !! i = Some t ->
  run (check_transaction (Some i)) now db =
    (Ok (mkResponse (jsonify [("transaction_id", JInt i);
                              ("status", json_of_str (status t))]) 200), db, []).
Proof.
  intros H. unfold run, check_transaction.
  step by (apply Transaction_query_get_text_idle, idle_start).
  simpl. rewrite H. simpl.
  step by (apply getattr_row_idle; [apply idle_start | exact H]).
  reflexivity.
Qed.

(** ** One iteration of the sweep *)

Section Loop.

Variable S : Setup.
Variable net : string -> bool.
Variable now : Z.

Lemma Transaction_user_committed t w txs row :
  user_relationship S = true -> txs !! t = Some row ->
  Transaction_user S t (committed w txs) =
    User_query_get (user_id row) (committed w txs).
Proof.
  intros HS Hrow. unfold Transaction_user. rewrite HS.
  step by (apply getattr_row_idle; [apply idle_committed | exact Hrow]).
  reflexivity.
Qed.

Lemma Transaction_user_found t w txs row uid u :
  user_relationship S = true -> txs !! t = Some row ->
  user_id row = Some uid -> users (database w) !! uid = Some u ->
  Transaction_user S t (committed w txs) = (Ok (Some u), committed w txs).
Proof.
  intros HS Hrow Huid Hu.
  rewrite (Transaction_user_committed t w txs row HS Hrow), Huid.
  apply User_query_get_found. exact Hu.
Qed.

Lemma Transaction_user_no_owner t w txs row :
  user_relationship S = true -> txs !! t = Some row ->
  (user_id row ≫= fun i => users (database w) !! i) = None ->
  Transaction_user S t (committed w txs) = (Ok None, committed w txs) \/
  Transaction_user S t (committed w txs) = (Raise OverflowError, committed w txs).
Proof.
  intros HS Hrow Hnone.
  rewrite (Transaction_user_committed t w txs row HS Hrow).
  unfold User_query_get.
  destruct (user_id row) as [uid|]; [|left; reflexivity].
  simpl in Hnone. simpl. rewrite Hnone.
  destruct (int64 uid); [left | right]; reflexivity.
Qed.

Lemma expire_if_stale_spec t w r w' :
  idle w -> expire_if_stale S net now t w = (r, w') ->
  w' = w \/
  exists row, transactions (database w) !! t = Some row /\ stale now row /\
    let wc := committed w (<[t := set_status (Some "expired") row]>
                             (transactions (database w))) in
    w' = wc \/
    exists uid u url,
      user_id row = Some uid /\ users (database w) !! uid = Some u /\
      webhook_url u = Some url /\ w' = posted wc url (expired_payload t).
Proof.
  intros Hw H. unfold expire_if_stale in H.
  destruct (transactions (database w) !! t) as [row|] eqn:Hrow; cycle 1.
  { erewrite bind_raise in H; cycle 1.
    { unfold getattr_row. rewrite (view_idle w Hw), Hrow. reflexivity. }
    left. congruence. }
  step in H by (apply getattr_row_idle; eassumption).
  destruct (created_at row) as [c|] eqn:Hc; cycle 1.
  { stop in H by reflexivity. left. congruence. }
  step in H by reflexivity.
  destruct (total_seconds_gt (now - c) 900) eqn:Hgt; cycle 1.
  { left. unfold ret in H. congruence. }
  right. exists row. split; [reflexivity|]. split.
  { exists c. split; [exact Hc|]. unfold total_seconds_gt in Hgt.
    apply Z.ltb_lt in Hgt. unfold second. exact Hgt. }
  step in H by (apply setattr_status_idle; eassumption).
  step in H by apply session_commit_assigned.
  set (txs := <[t := set_status (Some "expired") row]> (transactions (database w))) in *.
  assert (Hnew : txs !! t = Some (set_status (Some "expired") row))
    by apply lookup_insert_eq.
  simpl.
  destruct (user_relationship S) eqn:HS; cycle 1.
  { erewrite bind_raise in H; cycle 1.
    { unfold Transaction_user. rewrite HS. reflexivity. }
    left. congruence. }
  destruct (user_id row ≫= fun i => users (database w) !! i) as [u|] eqn:Hown;
    cycle 1.
  { destruct (Transaction_user_no_owner t w txs _ HS Hnew Hown) as [E|E].
    - step in H by exact E. stop in H by reflexivity. left. congruence.
    - stop in H by exact E. left. congruence. }
  destruct (user_id row) as [uid|] eqn:Huid; [simpl in Hown|discriminate Hown].
  step in H by (eapply Transaction_user_found; eassumption).
  step in H by reflexivity.
  destruct (truthy (webhook_url u)) eqn:Htr; cycle 1.
  { left. unfold ret in H. congruence. }
  step in H by (eapply Transaction_user_found; eassumption).
  step in H by reflexivity.
  step in H by (apply getattr_row_idle; [apply idle_committed | exact Hnew]).
  destruct (webhook_url u) as [url|] eqn:Hurl; [|discriminate Htr].
  right. exists uid, u, url. repeat split; try assumption.
  unfold requests_post in H. simpl in H. unfold posted, expired_payload. simpl.
  congruence.
Qed.

(** The whole loop. *)

Lemma sweeps_refl ids w : idle w -> sweeps now ids w w.
Proof.
  intros Hw. repeat split; try apply Hw.
  - intros i. left. reflexivity.
  - exists []. split; [symmetry; apply app_nil_r|].
    intros pre url payload post E. destruct pre; discriminate E.
Qed.

Lemma sweeps_body t w r w' :
  idle w -> expire_if_stale S net now t w = (r, w') -> sweeps now [t] w w'.
Proof.
  intros Hw H.
  destruct (expire_if_stale_spec _ _ _ _ Hw H)
    as [->|(row & Hrow & Hst & Hcase)]; [apply sweeps_refl, Hw|].
  simpl in Hcase.
  assert (Hrows : forall i,
    swept now [t] i (transactions (database w) !! i)
      (<[t := set_status (Some "expired") row]> (transactions (database w)) !! i)).
  { intros i. destruct (decide (t = i)) as [<-|Hne].
    - right. split; [apply list_elem_of_singleton; reflexivity|].
      exists row. rewrite lookup_insert_eq. auto.
    - left. apply lookup_insert_ne, Hne. }
  destruct Hcase as [->|(uid & u & url & Huid & Hu & Hurl & ->)].
  - split; [apply idle_committed|]. split; [reflexivity|]. split; [exact Hrows|].
    eexists. split; [reflexivity|].
    intros pre url payload post E.
    destruct pre as [|e [|e' pre]]; discriminate E.
  - split; [split; reflexivity|]. split; [reflexivity|]. split; [exact Hrows|].
    exists [EvCommit (mkDatabase (users (database w))
              (<[t := set_status (Some "expired") row]> (transactions (database w))));
            EvPost url (expired_payload t)].
    split; [simpl; rewrite <- app_assoc; reflexivity|].
    intros pre url' payload post E.
    destruct pre as [|e [|e' pre]]; [discriminate E| |destruct pre; discriminate E].
    injection E as He Eurl Epay Epost. subst e url' payload post.
    eexists [], _, t, row, uid, u.
    split; [reflexivity|]. simpl. rewrite lookup_insert_eq.
    repeat split; try assumption. apply list_elem_of_singleton; reflexivity.
Qed.

Lemma sweeps_trans ids1 ids2 w w1 w2 :
  sweeps now ids1 w w1 -> sweeps now ids2 w1 w2 -> sweeps now (ids1 ++ ids2) w w2.
Proof.
  intros (Hi1 & Hu1 & Hr1 & evs1 & Ht1 & Ha1) (Hi2 & Hu2 & Hr2 & evs2 & Ht2 & Ha2).
  split; [exact Hi2|]. split; [congruence|]. split.
  - intros i. specialize (Hr1 i). specialize (Hr2 i).
    destruct Hr2 as [E2|(Hin2 & t2 & E1' & Hst2 & E2)].
    + rewrite E2. destruct Hr1 as [E1|(Hin1 & t1 & E1 & Hst1 & E1')].
      * left. exact E1.
      * right. split; [apply elem_of_app; left; exact Hin1|]. eauto.
    + destruct Hr1 as [E1|(Hin1 & t1 & E1 & Hst1 & E1'')].
      * right. split; [apply elem_of_app; right; exact Hin2|].
        exists t2. rewrite <- E1, E1'. auto.
      * right. split; [apply elem_of_app; left; exact Hin1|].
        exists t1. split; [exact E1|]. split; [exact Hst1|].
        rewrite E2. rewrite E1'' in E1'. injection E1' as <-. reflexivity.
  - exists (evs1 ++ evs2). split; [rewrite Ht2, Ht1, app_assoc; reflexivity|].
    intros pre url payload post E.
    apply List.app_eq_app in E as [l [[E1 E2]|[E1 E2]]].
    + symmetry in E2. apply List.app_eq_cons in E2 as [[-> E2]|(l' & -> & ->)].
      * rewrite app_nil_r in E1. subst evs1.
        destruct (Ha2 [] url payload post E2)
          as (pre' & snap & i & t & uid & u & Hp & _).
        destruct pre'; discriminate Hp.
      * destruct (Ha1 pre url payload l' E1)
          as (pre' & snap & i & t & uid & u & Hp & Hpay & Hin & Ht & Hs & Hrest).
        exists pre', snap, i, t, uid, u.
        repeat split; try tauto. apply elem_of_app; left; exact Hin.
    + destruct (Ha2 l url payload post E2)
        as (pre' & snap & i & t & uid & u & Hp & Hpay & Hin & Ht & Hs & Huid & Hu & Hurl).
      subst l pre.
      destruct (Hr1 i) as [E0|(Hin1 & t1 & E0 & Hst1 & E0')].
      * exists (evs1 ++ pre'), snap, i, t, uid, u.
        rewrite app_assoc.
        repeat split; try assumption; try congruence.
        apply elem_of_app; right; exact Hin.
      * rewrite E0' in Ht. injection Ht as <-.
        exists (evs1 ++ pre'), snap, i, t1, uid, u.
        rewrite app_assoc.
        repeat split; try assumption; try congruence.
        apply elem_of_app; left; exact Hin1.
Qed.

Lemma sweep_loop_spec ids : forall w r w',
  idle w -> sweep_loop S net now ids w = (r, w') -> sweeps now ids w w'.
Proof.
  induction ids as [|t rest IH]; intros w r w' Hw H; simpl in H.
  - unfold ret in H. injection H as _ <-. apply sweeps_refl, Hw.
  - apply bind_inv in H as [(a & w1 & Hb & Hl)|(e & Hb & _)].
    + pose proof (sweeps_body _ _ _ _ Hw Hb) as Hs1.
      apply (sweeps_trans [t] rest w w1 w' Hs1).
      apply (IH w1 r w'); [apply Hs1 | exact Hl].
    + pose proof (sweeps_body _ _ _ _ Hw Hb) as Hs1.
      apply (sweeps_trans [t] rest w w' w' Hs1).
      apply sweeps_refl, Hs1.
Qed.

End Loop.

(** ** One run of the task *)

Lemma elem_of_pending_ids db i :
  i ∈ pending_ids db <->
  exists t, transactions db !! i = Some t /\ status t = Some "pending".
Proof.
  unfold pending_ids. rewrite merge_sort_Permutation, list_elem_of_fmap. split.
  - intros ([k t] & -> & Hkt). apply elem_of_map_to_list in Hkt.
    apply map_lookup_filter_Some in Hkt as [Hl Hp]. exists t. auto.
  - intros (t & Hl & Hp). exists (i, t). split; [reflexivity|].
    apply elem_of_map_to_list, map_lookup_filter_Some. auto.
Qed.

Lemma run_sweep_spec S net now db :
  users (db_of (run (sweep S net) now db)) = users db /\
  (forall i, swept now (pending_ids db) i (transactions db !! i)
               (transactions (db_of (run (sweep S net) now db)) !! i)) /\
  announced (pending_ids db) db (trace_of (run (sweep S net) now db)).
Proof.
  assert (Hnone : users db = users db /\
    (forall i, swept now (pending_ids db) i (transactions db !! i)
                 (transactions db !! i)) /\
    announced (pending_ids db) db []).
  { split; [reflexivity|]. split; [intros i; left; reflexivity|].
    intros pre url payload post E. destruct pre; discriminate E. }
  destruct S as [g rel]. unfold run, sweep. simpl.
  destruct g; try exact Hnone.
  step by reflexivity. step by reflexivity.
  step by reflexivity.
  erewrite bind_ok; cycle 1.
  { unfold query_pending. rewrite view_idle by apply idle_start. reflexivity. }
  simpl. fold (pending_ids db).
  destruct (sweep_loop _ net now (pending_ids db) (mkWorld now db empty_session []))
    as [r w'] eqn:E.
  apply sweep_loop_spec in E as (_ & Hu & Hr & evs & Ht & Ha); [|apply idle_start].
  unfold db_of, trace_of. simpl in *. rewrite Ht. auto.
Qed.

Lemma sweep_rows S net now db i :
  transactions (db_of (run (sweep S net) now db)) !! i = transactions db !! i \/
  exists t, transactions db !! i = Some t /\ status t = Some "pending" /\
            stale now t /\
            transactions (db_of (run (sweep S net) now db)) !! i
              = Some (set_status (Some "expired") t).
Proof.
  destruct (run_sweep_spec S net now db) as (_ & Hr & _).
  destruct (Hr i) as [E|(Hin & t & E & Hst & E')]; [left; exact E|].
  right. exists t. apply elem_of_pending_ids in Hin as (t0 & Ht0 & Hp).
  rewrite E in Ht0. injection Ht0 as <-. auto.
Qed.

(** ** What one operation may do to the tables *)

(** Every outcome of a create request. *)
Lemma run_create_cases now db uid amt :
  run (create_transaction uid amt) now db
    = (Ok (not_found "User not found"), db, []) \/
  (exists e, (e = TypeError \/ e = OverflowError \/
              e = IntegrityError \/ e = OperationalError) /\
             run (create_transaction uid amt) now db = (Raise e, db, [])) \/
  (exists i u a r a' c',
     uid = Some i /\ users db !! i = Some u /\ amt = Some a /\
     commission_rate u = Some r /\
     sqlite_real a = Some a' /\ sqlite_real (PrimFloat.mul a r) = Some c' /\
     rowid_free (transactions db) = true /\
     run (create_transaction uid amt) now db
       = (Ok (mkResponse (jsonify [("transaction_id",
                                    JInt (next_id (transactions db)))]) 201),
          with_new_row db now a' c' uid,
          [EvCommit (with_new_row db now a' c' uid)])).
Proof.
  destruct uid as [i|]; cycle 1.
  { left. apply run_create_unknown. intros i E. discriminate E. }
  destruct (users db !! i) as [u|] eqn:Hu; cycle 1.
  { destruct (int64 i) eqn:Hi.
    - left. apply run_create_unknown. intros j E. injection E as <-. auto.
    - right. left. exists OverflowError. split; [auto|].
      apply run_create_overflow; assumption. }
  destruct (py_mul amt (commission_rate u)) as [c|e] eqn:Hm; cycle 1.
  { right. left. exists e. split; cycle 1.
    - eapply run_create_type_error; eassumption.
    - destruct amt as [a|], (commission_rate u) as [r|]; simpl in Hm;
        try discriminate Hm; injection Hm as <-; auto. }
  destruct amt as [a|]; [|discriminate Hm].
  destruct (commission_rate u) as [r|] eqn:Hr; [|discriminate Hm].
  destruct (sqlite_real a) as [a'|] eqn:Ha; cycle 1.
  { right. left.
    destruct (run_create_not_stored now db i u a r Hu Hr (or_introl Ha))
      as (e & [-> | ->] & E); eexists; (split; [|exact E]); auto. }
  destruct (sqlite_real (PrimFloat.mul a r)) as [c'|] eqn:Hc; cycle 1.
  { right. left.
    destruct (run_create_not_stored now db i u a r Hu Hr (or_intror (or_introl Hc)))
      as (e & [-> | ->] & E); eexists; (split; [|exact E]); auto. }
  destruct (rowid_free (transactions db)) eqn:Hfree; cycle 1.
  { right. left.
    destruct (run_create_not_stored now db i u a r Hu Hr (or_intror (or_intror Hfree)))
      as (e & [-> | ->] & E); eexists; (split; [|exact E]); auto. }
  right. right. exists i, u, a, r, a', c'.
  repeat split; try assumption.
  eapply run_create_known; eassumption.
Qed.

Lemma create_db now db uid amt :
  db_of (run (create_transaction uid amt) now db) = db \/
  exists a c, db_of (run (create_transaction uid amt) now db)
              = with_new_row db now a c uid.
Proof.
  destruct (run_create_cases now db uid amt)
    as [E|[(e & _ & E)|(i & u & a & r & a' & c' & _ & _ & _ & _ & _ & _ & _ & E)]];
    rewrite E.
  - left. reflexivity.
  - left. reflexivity.
  - right. exists a', c'. reflexivity.
Qed.

(** Every outcome of a cancel request. *)
Lemma run_cancel_cases now db tid :
  run (cancel_transaction tid) now db
    = (Ok (not_found "Transaction not found"), db, []) \/
  (exists i, tid = Some i /\ transactions db !! i = None /\ int64 i = false /\
             run (cancel_transaction tid) now db = (Raise OverflowError, db, [])) \/
  (exists i t, tid = Some i /\ transactions db !! i = Some t /\
     status t = Some "pending" /\
     run (cancel_transaction tid) now db
       = (Ok (mkResponse (jsonify [("status", JStr "canceled")]) 200),
          with_status db i "canceled" t,
          [EvCommit (with_status db i "canceled" t)])) \/
  (exists i t, tid = Some i /\ transactions db !! i = Some t /\
     status t <> Some "pending" /\
     run (cancel_transaction tid) now db
       = (Ok (mkResponse (jsonify [("status", json_of_str (status t))]) 200),
          db, [])).
Proof.
  destruct tid as [i|]; cycle 1.
  { left. apply run_cancel_missing. intros i E. discriminate E. }
  destruct (transactions db !! i) as [t|] eqn:Ht; cycle 1.
  { destruct (int64 i) eqn:Hi.
    - left. apply run_cancel_missing. intros j E. injection E as <-. auto.
    - right. left. exists i. repeat split; try assumption.
      apply run_cancel_overflow; assumption. }
  destruct (decide (status t = Some "pending")) as [Hp|Hp].
  - right. right. left. exists i, t. repeat split; try assumption.
    apply run_cancel_pending; assumption.
  - right. right. right. exists i, t. repeat split; try assumption.
    apply run_cancel_other; assumption.
Qed.

Lemma cancel_db now db tid :
  db_of (run (cancel_transaction tid) now db) = db \/
  exists i t, tid = Some i /\ transactions db !! i = Some t /\
              status t = Some "pending" /\
              db_of (run (cancel_transaction tid) now db)
                = with_status db i "canceled" t.
Proof.
  destruct (run_cancel_cases now db tid)
    as [E|[(i & _ & _ & _ & E)|[(i & t & Hi & Ht & Hp & E)|(i & t & _ & _ & _ & E)]]];
    rewrite E.
  - left. reflexivity.
  - left. reflexivity.
  - right. exists i, t. auto.
  - left. reflexivity.
Qed.

Lemma check_db now db tid :
  db_of (run (check_transaction tid) now db) = db.
Proof.
  destruct (tid ≫= fun i => transactions db !! i) as [t|] eqn:Ht; cycle 1.
  { rewrite run_check_missing by exact Ht. reflexivity. }
  destruct tid as [i|]; [simpl in Ht|discriminate Ht].
  rewrite (run_check_found now db i t Ht). reflexivity.
Qed.

Lemma exec_users S op now db : users (exec S op now db) = users db.
Proof.
  destruct op as [u a|tid|tid|net]; simpl.
  - destruct (create_db now db u a) as [->|(x & c & ->)]; reflexivity.
  - destruct (cancel_db now db tid) as [->|(i & t & _ & _ & _ & ->)]; reflexivity.
  - rewrite check_db. reflexivity.
  - apply run_sweep_spec.
Qed.

Lemma exec_row S op now db i t :
  transactions db !! i = Some t ->
  exists t', transactions (exec S op now db) !! i = Some t' /\
             row_change op i t t'.
Proof.
  intros Hi. destruct op as [u a|tid|tid|net]; simpl.
  - exists t. split; [|left; reflexivity].
    destruct (create_db now db u a) as [->|(x & c & ->)]; [exact Hi|].
    simpl. rewrite lookup_insert_ne; [exact Hi|].
    intros E. rewrite <- E, next_id_fresh in Hi. discriminate Hi.
  - destruct (cancel_db now db tid) as [->|(j & tj & -> & Hj & Hp & ->)].
    + exists t. split; [exact Hi | left; reflexivity].
    + simpl. destruct (decide (j = i)) as [->|Hne].
      * rewrite Hi in Hj. injection Hj as <-.
        exists (set_status (Some "canceled") t).
        rewrite lookup_insert_eq. split; [reflexivity|]. right. left. auto.
      * exists t. rewrite lookup_insert_ne by exact Hne.
        split; [exact Hi | left; reflexivity].
  - rewrite check_db. exists t. split; [exact Hi | left; reflexivity].
  - destruct (sweep_rows S net now db i) as [E|(t0 & Ht0 & Hp & _ & E)].
    + exists t. rewrite E. split; [exact Hi | left; reflexivity].
    + rewrite Hi in Ht0. injection Ht0 as <-.
      exists (set_status (Some "expired") t). split; [exact E|].
      right. right. eauto.
Qed.

Lemma exec_new_row S op now db i t' :
  transactions db !! i = None ->
  transactions (exec S op now db) !! i = Some t' ->
  (exists u a, op = OpCreate u a) /\ i = next_id (transactions db) /\
  status t' = Some "pending" /\ created_at t' = Some now.
Proof.
  intros Hi H'. destruct op as [u a|tid|tid|net]; simpl in H'.
  - destruct (create_db now db u a) as [E|(x & c & E)]; rewrite E in H'.
    + congruence.
    + simpl in H'. destruct (decide (next_id (transactions db) = i)) as [<-|Hne].
      * rewrite lookup_insert_eq in H'. injection H' as <-.
        repeat split; eauto.
      * rewrite lookup_insert_ne in H' by exact Hne. congruence.
  - destruct (cancel_db now db tid) as [E|(j & tj & _ & Hj & _ & E)]; rewrite E in H'.
    + congruence.
    + simpl in H'. destruct (decide (j = i)) as [->|Hne]; [congruence|].
      rewrite lookup_insert_ne in H' by exact Hne. congruence.
  - rewrite check_db in H'. congruence.
  - destruct (sweep_rows S net now db i) as [E|(t0 & Ht0 & _)]; congruence.
Qed.

(** ** Sequences of operations *)

Lemma exec_all_row S ops : forall db i t,
  transactions db !! i = Some t ->
  exists t', transactions (exec_all S ops db) !! i = Some t' /\ lifecycle t t'.
Proof.
  induction ops as [|[op now] rest IH]; intros db i t Hi; simpl.
  - exists t. split; [exact Hi | left; reflexivity].
  - destruct (exec_row S op now db i t Hi) as (t1 & H1 & Hc).
    destruct (IH _ i t1 H1) as (t2 & H2 & Hl).
    exists t2. split; [exact H2|].
    destruct Hc as [->|[(Hp & -> & _)|(Hp & -> & _)]]; [exact Hl| |].
    + destruct Hl as [->|(Hp' & _)]; [|discriminate Hp'].
      right. auto.
    + destruct Hl as [->|(Hp' & _)]; [|discriminate Hp'].
      right. auto.
Qed.

Lemma exec_valid S op now db : all_valid db -> all_valid (exec S op now db).
Proof.
  intros Hv i t' H'.
  destruct (transactions db !! i) as [t|] eqn:Hi.
  - destruct (exec_row S op now db i t Hi) as (t1 & H1 & Hc).
    rewrite H' in H1. injection H1 as <-.
    destruct Hc as [->|[(_ & -> & _)|(_ & -> & _)]].
    + exact (Hv i t Hi).
    + right. right. left. reflexivity.
    + right. right. right. reflexivity.
  - destruct (exec_new_row S op now db i t' Hi H') as (_ & _ & Hs & _).
    left. exact Hs.
Qed.

Lemma exec_all_valid S ops : forall db, all_valid db -> all_valid (exec_all S ops db).
Proof.
  induction ops as [|[op now] rest IH]; intros db Hv; simpl; [exact Hv|].
  apply IH, exec_valid, Hv.
Qed.

(** ** The name resolution of line 210, and of its siblings *)

(** Lines 44 and 65 look [utcnow] up on the name [datetime] and find it. *)
Example default_created_at_resolves :
  getattr (datetime_name source_setup) a_utcnow = Ok utcnow_method.
Proof. reflexivity. Qed.

(** Line 210 looks [datetime] up on the same name first. *)
Example line_210_raises :
  getattr (datetime_name source_setup) a_datetime = Raise AttributeError.
Proof. reflexivity. Qed.

Lemma check_pending_transactions_raises net now db :
  run (check_pending_transactions net) now db = (Raise AttributeError, db, []).
Proof. reflexivity. Qed.

(** With line 210 resolved and still no relationship on [Transaction], the
    first stale row is expired and line 217 raises before any request. *)
Example sweep_without_relationship :
  run (sweep (mkSetup datetime_module false) online) (901 * second) db0 =
    (Raise AttributeError, with_status db0 1 "expired" tx0,
     [EvCommit (with_status db0 1 "expired" tx0)]).
Proof. vm_compute. reflexivity. Qed.

(** With both names resolved the loop does what lines 212-221 spell out. *)
Example sweep_resolved_901 :
  run (sweep (mkSetup datetime_module true) online) (901 * second) db0 =
    (Ok tt, with_status db0 1 "expired" tx0,
     [EvCommit (with_status db0 1 "expired" tx0);
      EvPost "http://hook" (expired_payload 1)]).
Proof. vm_compute. reflexivity. Qed.

Example sweep_resolved_899 :
  run (sweep (mkSetup datetime_module true) online) (899 * second) db0 =
    (Ok tt, db0, []).
Proof. vm_compute. reflexivity. Qed.

(** * Properties of the specification *)

(** C1 (the code at the failing input).  A pending transaction created at
    T = 0 and swept at T + 901 s, whose owner has a webhook_url: the run of
    [check_pending_transactions] raises AttributeError at its first
    statement, the transaction is still pending and no notification is
    issued; the same holds for every database and every clock. *)
Theorem check_pending_transactions_stale_pending :
  run (check_pending_transactions online) (901 * second) db0
    = (Raise AttributeError, db0, []) /\
  transactions db0 !! 1 = Some tx0 /\
  status tx0 = Some "pending" /\
  stale (901 * second) tx0 /\
  (exists u, users db0 !! 1 = Some u /\ webhook_url u = Some "http://hook") /\
  forall net now db,
    run (check_pending_transactions net) now db = (Raise AttributeError, db, []).
Proof.
  split; [reflexivity|]. split; [reflexivity|]. split; [reflexivity|].
  split; [exists 0; split; [reflexivity | unfold second; lia]|].
  split; [exists alice; split; reflexivity|].
  intros net now db. apply check_pending_transactions_raises.
Qed.




(** C3 (counterexample).  No transaction has the key 2^63, and cancel on
    it does not answer 404: the lookup of line 163 raises OverflowError,
    because the key does not fit in the 64 bits sqlite3 binds. *)
Lemma cancel_transaction_key_out_of_range :
  transactions db1 !! (2 ^ 63) = None /\
  run (cancel_transaction (Some (2 ^ 63))) 5 db1 = (Raise OverflowError, db1, []).
Proof. split; reflexivity. Qed.

(** C3 (amended).  When no transaction has the key, cancel(transaction_id)
    answers 404 and changes nothing if the key is absent from the request
    or is a signed 64-bit integer, and raises OverflowError, changing
    nothing, if it is an integer outside that range; on a pending
    transaction it stores the status canceled with a commit; on a
    transaction with any other status it changes nothing and raises
    nothing; in both found cases it answers 200 with the resulting
    status. *)
Theorem cancel_transaction_cases now db tid :
  ((forall i, tid = Some i -> transactions db !! i = None /\ int64 i = true) ->
   run (cancel_transaction tid) now db
     = (Ok (not_found "Transaction not found"), db, [])) /\
  (forall i, tid = Some i -> transactions db !! i = None -> int64 i = false ->
     run (cancel_transaction tid) now db = (Raise OverflowError, db, [])) /\
  (forall i t, tid = Some i -> transactions db !! i = Some t ->
     status t = Some "pending" ->
     run (cancel_transaction tid) now db
       = (Ok (mkResponse (jsonify [("status", JStr "canceled")]) 200),
          with_status db i "canceled" t,
          [EvCommit (with_status db i "canceled" t)])) /\
  (forall i t, tid = Some i -> transactions db !! i = Some t ->
     status t <> Some "pending" ->
     run (cancel_transaction tid) now db
       = (Ok (mkResponse (jsonify [("status", json_of_str (status t))]) 200),
          db, [])).
Proof.
  split; [apply run_cancel_missing|]. split; [|split].
  - intros i -> Hi Hr. apply run_cancel_overflow; assumption.
  - intros i t -> Hi Hp. apply run_cancel_pending; assumption.
  - intros i t -> Hi Hp. apply run_cancel_other; assumption.
Qed.

Lemma cancel_transaction_cases_witness :
  run (cancel_transaction (Some 9)) 5 db1
    = (Ok (not_found "Transaction not found"), db1, []) /\
  run (cancel_transaction (Some (- 2 ^ 63 - 1))) 5 db1
    = (Raise OverflowError, db1, []) /\
  run (cancel_transaction (Some 1)) 5 db1
    = (Ok (mkResponse (jsonify [("status", JStr "canceled")]) 200),
       with_status db1 1 "canceled" tx0,
       [EvCommit (with_status db1 1 "canceled" tx0)]) /\
  run (cancel_transaction (Some 2)) 5 db1
    = (Ok (mkResponse (jsonify [("status", JStr "confirmed")]) 200), db1, []).
Proof.
  split; [|split; [|split]].
  - apply (proj1 (cancel_transaction_cases 5 db1 (Some 9))).
    intros i E. injection E as <-. split; reflexivity.
  - apply (proj1 (proj2 (cancel_transaction_cases 5 db1 (Some (- 2 ^ 63 - 1))))
             (- 2 ^ 63 - 1)); reflexivity.
  - apply (proj1 (proj2 (proj2 (cancel_transaction_cases 5 db1 (Some 1)))) 1 tx0);
      reflexivity.
  - apply (proj2 (proj2 (proj2 (cancel_transaction_cases 5 db1 (Some 2)))) 2
             tx_confirmed);
      [reflexivity | reflexivity | discriminate].
Defined.

(** C4.  A run of the sweeper leaves every transaction whose status is not
    pending exactly as it was, whatever its age: this holds for the loop of
    lines 211-221 under any resolution of the names it uses and any
    network behaviour, and for [check_pending_transactions] as defined. *)
Theorem sweep_keeps_non_pending S net now db i t :
  transactions db !! i = Some t ->
  status t <> Some "pending" ->
  transactions (db_of (run (sweep S net) now db)) !! i = Some t /\
  transactions (db_of (run (check_pending_transactions net) now db)) !! i = Some t /\
  users (db_of (run (sweep S net) now db)) = users db.
Proof.
  intros Hi Hp.
  assert (H : forall S', transactions (db_of (run (sweep S' net) now db)) !! i = Some t).
  { intros S'. destruct (sweep_rows S' net now db i) as [E|(t0 & Ht0 & Hp0 & _)].
    - rewrite E. exact Hi.
    - rewrite Hi in Ht0. injection Ht0 as <-. contradiction. }
  split; [apply H|]. split; [apply H|]. apply run_sweep_spec.
Qed.

Lemma sweep_keeps_non_pending_witness :
  transactions (db_of (run (sweep (mkSetup datetime_module true) online)
                           (5000 * second) db1)) !! 2 = Some tx_confirmed /\
  transactions (db_of (run (sweep (mkSetup datetime_module true) online)
                           (5000 * second) db1)) !! 1
    = Some (set_status (Some "expired") tx0).
Proof.
  split.
  - apply (sweep_keeps_non_pending (mkSetup datetime_module true) online
             (5000 * second) db1 2 tx_confirmed); [reflexivity | discriminate].
  - vm_compute. reflexivity.
Defined.

(** C5 (counterexample).  No user has the key 2^63, and create with that
    user_id does not answer 404: the lookup of line 124 raises
    OverflowError.  Nothing is persisted. *)
Lemma create_transaction_user_id_out_of_range :
  users db0 !! (2 ^ 63) = None /\
  run (create_transaction (Some (2 ^ 63)) (Some 100%float)) 3 db0
    = (Raise OverflowError, db0, []).
Proof. split; reflexivity. Qed.

(** C5 (amended).  When user_id names no existing user, create(user_id,
    amount) commits nothing and leaves the database as it was, for every
    amount (a missing one included): it answers 404 if user_id is absent
    from the request or is a signed 64-bit integer, and raises
    OverflowError if it is an integer outside that range. *)
Theorem create_transaction_unknown_user now db uid amt :
  (forall i, uid = Some i -> users db !! i = None) ->
  ((forall i, uid = Some i -> int64 i = true) ->
   run (create_transaction uid amt) now db
     = (Ok (not_found "User not found"), db, [])) /\
  (forall i, uid = Some i -> int64 i = false ->
   run (create_transaction uid amt) now db = (Raise OverflowError, db, [])).
Proof.
  intros H. split.
  - intros Hr. apply run_create_unknown. intros i E. split; [apply H | apply Hr]; exact E.
  - intros i -> Hi. apply run_create_overflow; [apply H; reflexivity | exact Hi].
Qed.

Lemma create_transaction_unknown_user_witness :
  run (create_transaction (Some 7) (Some 100%float)) 3 db0
    = (Ok (mkResponse (jsonify [("error", JStr "User not found")]) 404), db0, []) /\
  run (create_transaction (Some (2 ^ 64)) None) 3 db0
    = (Raise OverflowError, db0, []).
Proof.
  split.
  - apply (proj1 (create_transaction_unknown_user 3 db0 (Some 7) (Some 100%float)
                    ltac:(intros i E; injection E as <-; reflexivity))).
    intros i E. injection E as <-. reflexivity.
  - apply (proj2 (create_transaction_unknown_user 3 db0 (Some (2 ^ 64)) None
                    ltac:(intros i E; injection E as <-; reflexivity))
             (2 ^ 64)); reflexivity.
Defined.

(** C6.  Lifecycle.  (1) A row that an operation adds has status pending.
    (2) If every status in the tables is one of pending, confirmed,
    canceled, expired, this stays so after any sequence of create, cancel,
    check and sweep.  (3) After one operation a row that existed is still
    there; it is canceled only if it was canceled already or was pending
    and the operation was its cancel; it is expired only if it was expired
    already or was pending and the operation was the sweep; it is confirmed
    only if it was confirmed already.  (4) A row in a terminal status is
    the same row after any sequence of operations. *)
Theorem transaction_lifecycle S db :
  (forall op now i t',
     transactions db !! i = None ->
     transactions (exec S op now db) !! i = Some t' ->
     status t' = Some "pending" /\ exists u a, op = OpCreate u a) /\
  (all_valid db -> forall ops, all_valid (exec_all S ops db)) /\
  (forall op now i t,
     transactions db !! i = Some t ->
     exists t', transactions (exec S op now db) !! i = Some t' /\
       (status t' = Some "canceled" ->
        status t = Some "canceled" \/
        (status t = Some "pending" /\ op = OpCancel (Some i))) /\
       (status t' = Some "expired" ->
        status t = Some "expired" \/
        (status t = Some "pending" /\ exists net, op = OpSweep net)) /\
       (status t' = Some "confirmed" -> status t = Some "confirmed")) /\
  (forall i t,
     transactions db !! i = Some t -> terminal (status t) ->
     forall ops, transactions (exec_all S ops db) !! i = Some t).
Proof.
  split; [|split; [|split]].
  - intros op now i t' Hi H'.
    destruct (exec_new_row S op now db i t' Hi H') as (Hop & _ & Hs & _). auto.
  - intros Hv ops. apply exec_all_valid, Hv.
  - intros op now i t Hi.
    destruct (exec_row S op now db i t Hi) as (t' & H' & Hc).
    exists t'. split; [exact H'|].
    destruct Hc as [->|[(Hp & -> & Hop)|(Hp & -> & Hop)]]; simpl.
    + split; [|split]; intros E; [left; exact E | left; exact E | exact E].
    + split; [|split]; intros E; [right; auto | discriminate E | discriminate E].
    + split; [|split]; intros E; [discriminate E | right; auto | discriminate E].
  - intros i t Hi Hterm ops.
    destruct (exec_all_row S ops db i t Hi) as (t' & H' & Hl).
    destruct Hl as [->|(Hp & _)]; [exact H'|].
    destruct Hterm as [E|[E|E]]; rewrite E in Hp; discriminate Hp.
Qed.

Lemma transaction_lifecycle_witness :
  status tx0 = Some "pending" /\
  all_valid (exec_all (mkSetup datetime_module true)
               [(OpCreate (Some 1) (Some 2%float), 10);
                (OpCancel (Some 5), 11);
                (OpSweep online, 5000 * second)] db1) /\
  transactions (exec_all (mkSetup datetime_module true)
                  [(OpCancel (Some 2), 11); (OpSweep online, 5000 * second)] db1)
    !! 2 = Some tx_confirmed.
Proof.
  destruct (transaction_lifecycle (mkSetup datetime_module true) db1)
    as (Hnew & Hvalid & _ & Hterm).
  split; [|split].
  - apply (Hnew (OpCreate (Some 1) (Some 2%float)) 10 5
             (mkTransaction 2%float 0.5%float (Some "pending") (Some 10) (Some 1)));
      vm_compute; reflexivity.
  - apply Hvalid. intros i t Hi.
    destruct (decide (i = 4)) as [->|N4];
      [vm_compute in Hi; injection Hi as <-; right; right; right; reflexivity|].
    destruct (decide (i = 3)) as [->|N3];
      [vm_compute in Hi; injection Hi as <-; right; right; left; reflexivity|].
    destruct (decide (i = 2)) as [->|N2];
      [vm_compute in Hi; injection Hi as <-; right; left; reflexivity|].
    destruct (decide (i = 1)) as [->|N1];
      [vm_compute in Hi; injection Hi as <-; left; reflexivity|].
    unfold db1 in Hi. simpl in Hi.
    rewrite !lookup_insert_ne, lookup_singleton_ne in Hi by congruence.
    discriminate Hi.
  - apply Hterm; [reflexivity | left; reflexivity].
Defined.

(** C7.  check(transaction_id) answers 404 when there is no such
    transaction, and otherwise 200 with exactly the transaction's
    identifier and its current status; in both cases it commits nothing and
    the users and transactions are as before. *)
Theorem check_transaction_read_only now db tid :
  ((tid ≫= fun i => transactions db !! i) = None ->
   run (check_transaction tid) now db
     = (Ok (not_found "Transaction not found"), db, [])) /\
  (forall i t, tid = Some i -> transactions db !! i = Some t ->
     run (check_transaction tid) now db
       = (Ok (mkResponse (jsonify [("transaction_id", JInt i);
                                   ("status", json_of_str (status t))]) 200),
          db, [])) /\
  db_of (run (check_transaction tid) now db) = db /\
  trace_of (run (check_transaction tid) now db) = [].
Proof.
  split; [apply run_check_missing|]. split.
  { intros i t -> Hi. apply run_check_found, Hi. }
  destruct (tid ≫= fun i => transactions db !! i) as [t|] eqn:Ht.
  - destruct tid as [i|]; [simpl in Ht|discriminate Ht].
    rewrite (run_check_found now db i t Ht). split; reflexivity.
  - rewrite (run_check_missing now db tid Ht). split; reflexivity.
Qed.

Lemma check_transaction_read_only_witness :
  run (check_transaction (Some 9)) 5 db1
    = (Ok (mkResponse (jsonify [("error", JStr "Transaction not found")]) 404),
       db1, []) /\
  run (check_transaction (Some 3)) 5 db1
    = (Ok (mkResponse (jsonify [("transaction_id", JInt 3);
                                ("status", JStr "canceled")]) 200), db1, []).
Proof.
  split.
  - apply (proj1 (check_transaction_read_only 5 db1 (Some 9))). reflexivity.
  - apply (proj1 (proj2 (check_transaction_read_only 5 db1 (Some 3))) 3 tx_canceled);
      reflexivity.
Defined.

(** C8.  On a pending transaction the first cancel answers status
    canceled; every later cancel of the same transaction, however many and
    whenever, answers canceled again, commits nothing and leaves the
    database identical to the one the first cancel left. *)
Theorem cancel_transaction_idempotent now db i t :
  transactions db !! i = Some t ->
  status t = Some "pending" ->
  let db' := db_of (run (cancel_transaction (Some i)) now db) in
  result_of (run (cancel_transaction (Some i)) now db) = ok_status "canceled" /\
  db' = with_status db i "canceled" t /\
  (forall later, run (cancel_transaction (Some i)) later db'
                 = (ok_status "canceled", db', [])) /\
  (forall times, cancel_repeatedly i times db'
                 = (repeat (ok_status "canceled") (length times), db')).
Proof.
  intros Hi Hp db'. subst db'.
  rewrite (run_cancel_pending now db i t Hi Hp).
  change (db_of (?r, ?d, ?e)) with d. change (result_of (?r, ?d, ?e)) with r.
  split; [reflexivity|]. split; [reflexivity|].
  assert (Hagain : forall later,
    run (cancel_transaction (Some i)) later (with_status db i "canceled" t)
    = (ok_status "canceled", with_status db i "canceled" t, [])).
  { intros later.
    apply (run_cancel_other later (with_status db i "canceled" t) i
             (set_status (Some "canceled") t)).
    - apply lookup_insert_eq.
    - discriminate. }
  split; [exact Hagain|].
  induction times as [|later rest IH]; [reflexivity|].
  simpl. rewrite (Hagain later).
  change (db_of (?r, ?d, ?e)) with d. change (result_of (?r, ?d, ?e)) with r.
  rewrite IH. reflexivity.
Qed.

Lemma cancel_transaction_idempotent_witness :
  cancel_repeatedly 1 [6; 7; 8] (db_of (run (cancel_transaction (Some 1)) 5 db1))
    = ([ok_status "canceled"; ok_status "canceled"; ok_status "canceled"],
       with_status db1 1 "canceled" tx0).
Proof.
  destruct (cancel_transaction_idempotent 5 db1 1 tx0 eq_refl eq_refl)
    as (_ & Hdb & _ & Hmany).
  rewrite (Hmany [6; 7; 8]). rewrite Hdb. reflexivity.
Defined.

(** C9.  For an existing transaction in any status, cancel changes at most
    its status: its amount, commission, created_at and user_id are as
    before, every other transaction is as before, and so is every user. *)
Theorem cancel_transaction_frame now db i t :
  transactions db !! i = Some t ->
  let db' := db_of (run (cancel_transaction (Some i)) now db) in
  (exists t', transactions db' !! i = Some t' /\
              amount t' = amount t /\ commission t' = commission t /\
              created_at t' = created_at t /\ user_id t' = user_id t) /\
  (forall j, j <> i -> transactions db' !! j = transactions db !! j) /\
  users db' = users db.
Proof.
  intros Hi db'. subst db'.
  destruct (decide (status t = Some "pending")) as [Hp|Hp].
  - rewrite (run_cancel_pending now db i t Hi Hp).
    change (db_of (?r, ?d, ?e)) with d. simpl.
    split; [|split].
    + exists (set_status (Some "canceled") t). rewrite lookup_insert_eq.
      repeat split; reflexivity.
    + intros j Hj. apply lookup_insert_ne. congruence.
    + reflexivity.
  - rewrite (run_cancel_other now db i t Hi Hp).
    change (db_of (?r, ?d, ?e)) with d.
    split; [|split].
    + exists t. repeat split; try reflexivity. exact Hi.
    + reflexivity.
    + reflexivity.
Qed.

Lemma cancel_transaction_frame_witness :
  (exists t', transactions (db_of (run (cancel_transaction (Some 1)) 5 db1)) !! 1
              = Some t' /\
              amount t' = 100%float /\ commission t' = 25%float /\
              created_at t' = Some 0 /\ user_id t' = Some 1) /\
  transactions (db_of (run (cancel_transaction (Some 1)) 5 db1)) !! 2
    = Some tx_confirmed.
Proof.
  destruct (cancel_transaction_frame 5 db1 1 tx0 eq_refl) as (Hrow & Hothers & _).
  split; [exact Hrow|].
  rewrite (Hothers 2) by discriminate. reflexivity.
Defined.

(** C10.  In the trace of one sweeper run, under any resolution of the
    names the task uses and any network behaviour, every webhook POST is
    directly preceded by the commit whose snapshot holds the transaction
    it names as expired; that transaction was pending when the run began,
    the body is {transaction_id, status: "expired"} and the URL is the
    owner's webhook_url. *)
Theorem sweep_commits_before_post S net now db pre url payload post :
  trace_of (run (sweep S net) now db) = pre ++ EvPost url payload :: post ->
  exists pre' snap i t uid u,
    pre = pre' ++ [EvCommit snap] /\
    payload = expired_payload i /\
    transactions db !! i = Some t /\ status t = Some "pending" /\
    transactions snap !! i = Some (set_status (Some "expired") t) /\
    user_id t = Some uid /\ users db !! uid = Some u /\
    webhook_url u = Some url.
Proof.
  intros E.
  destruct (run_sweep_spec S net now db) as (_ & _ & Ha).
  destruct (Ha pre url payload post E)
    as (pre' & snap & i & t & uid & u & Hp & Hpay & Hin & Ht & Hs & Hrest).
  apply elem_of_pending_ids in Hin as (t0 & Ht0 & Hpend).
  rewrite Ht in Ht0. injection Ht0 as <-.
  exists pre', snap, i, t, uid, u. tauto.
Qed.

Lemma sweep_commits_before_post_witness :
  exists pre' snap i t uid u,
    [EvCommit (with_status db0 1 "expired" tx0)] = pre' ++ [EvCommit snap] /\
    expired_payload 1 = expired_payload i /\
    transactions db0 !! i = Some t /\ status t = Some "pending" /\
    transactions snap !! i = Some (set_status (Some "expired") t) /\
    user_id t = Some uid /\ users db0 !! uid = Some u /\
    webhook_url u = Some "http://hook".
Proof.
  apply (sweep_commits_before_post (mkSetup datetime_module true) online
           (901 * second) db0
           [EvCommit (with_status db0 1 "expired" tx0)]
           "http://hook" (expired_payload 1) []).
  vm_compute. reflexivity.
Defined.

(** * Further properties of the code *)

(** ** Helper facts *)


Lemma exec_all_users S ops : forall db, users (exec_all S ops db) = users db.
Proof.
  induction ops as [|[op now] rest IH]; intros db; simpl; [reflexivity|].
  rewrite IH. apply exec_users.
Qed.

(** ** create_transaction *)

(** X1.  For an existing user, a request without an amount, or a user
    whose commission_rate is NULL, makes line 128 raise TypeError: the
    request fails, nothing is committed and the database is unchanged. *)
Theorem create_transaction_type_error now db uid u amt :
  users db !! uid = Some u ->
  amt = None \/ commission_rate u = None ->
  run (create_transaction (Some uid) amt) now db = (Raise TypeError, db, []).
Proof.
  intros Hu Hnone. apply (run_create_type_error now db uid u amt); [exact Hu|].
  destruct Hnone as [-> | Hr]; [reflexivity|].
  rewrite Hr. destruct amt; reflexivity.
Qed.

Lemma create_transaction_type_error_witness :
  run (create_transaction (Some 1) None) 3 db0 = (Raise TypeError, db0, []) /\
  run (create_transaction (Some 2) (Some 8%float)) 3 db2 = (Raise TypeError, db2, []).
Proof.
  split.
  - apply (create_transaction_type_error 3 db0 1 alice None); [reflexivity|].
    left. reflexivity.
  - apply (create_transaction_type_error 3 db2 2 bob (Some 8%float)); [reflexivity|].
    right. reflexivity.
Defined.


(** X3.  Whenever create answers 201, check on the identifier it returned
    answers 200 with that identifier and the status pending, and changes
    nothing. *)
Theorem check_after_create now later db uid amt id :
  result_of (run (create_transaction uid amt) now db)
    = Ok (mkResponse (jsonify [("transaction_id", JInt id)]) 201) ->
  run (check_transaction (Some id)) later
      (db_of (run (create_transaction uid amt) now db))
    = (Ok (mkResponse (jsonify [("transaction_id", JInt id);
                                ("status", JStr "pending")]) 200),
       db_of (run (create_transaction uid amt) now db), []).
Proof.
  destruct (run_create_cases now db uid amt)
    as [E|[(e & He & E)|(i & u & a & r & a' & c' & _ & _ & _ & _ & _ & _ & _ & E)]];
    rewrite E; intros Hres.
  - discriminate Hres.
  - discriminate Hres.
  - injection Hres as <-.
    change (db_of (?x, ?d, ?e)) with d.
    apply (run_check_found later _ _
             (mkTransaction a' c' (Some "pending") (Some now) uid)).
    apply lookup_insert_eq.
Qed.

Lemma check_after_create_witness :
  run (check_transaction (Some 5)) 4
      (db_of (run (create_transaction (Some 1) (Some 8%float)) 3 db1))
    = (Ok (mkResponse (jsonify [("transaction_id", JInt 5);
                                ("status", JStr "pending")]) 200),
       db_of (run (create_transaction (Some 1) (Some 8%float)) 3 db1), []).
Proof.
  apply (check_after_create 3 4 db1 (Some 1) (Some 8%float) 5). reflexivity.
Defined.

(** X4.  create has no idempotency check: whenever the same request sent
    twice is answered 201 both times, the two identifiers differ, and
    afterwards both rows are stored, pending, with the same amount,
    commission and owner. *)
Theorem create_twice_two_rows now1 now2 db uid amt id1 id2 :
  let o1 := run (create_transaction uid amt) now1 db in
  let o2 := run (create_transaction uid amt) now2 (db_of o1) in
  result_of o1 = Ok (mkResponse (jsonify [("transaction_id", JInt id1)]) 201) ->
  result_of o2 = Ok (mkResponse (jsonify [("transaction_id", JInt id2)]) 201) ->
  id1 <> id2 /\
  exists a c,
    transactions (db_of o2) !! id1
      = Some (mkTransaction a c (Some "pending") (Some now1) uid) /\
    transactions (db_of o2) !! id2
      = Some (mkTransaction a c (Some "pending") (Some now2) uid).
Proof.
  intros o1 o2. subst o1 o2.
  destruct (run_create_cases now1 db uid amt)
    as [E|[(e & He & E)|(i & u & a & r & a' & c' & Huid & Hu & Hamt & Hr & Ha & Hc & _ & E)]];
    rewrite E; try (intros Hres; discriminate Hres).
  intros Hres. injection Hres as <-.
  change (db_of (?x, ?d, ?e)) with d.
  remember (with_new_row db now1 a' c' uid) as db' eqn:Edb.
  assert (H1 : transactions db' !! next_id (transactions db)
               = Some (mkTransaction a' c' (Some "pending") (Some now1) uid))
    by (subst db'; apply lookup_insert_eq).
  assert (Hu' : users db' = users db) by (subst db'; reflexivity).
  destruct (run_create_cases now2 db' uid amt)
    as [E2|[(e & He & E2)
           |(i2 & u2 & a2 & r2 & a2' & c2' & Huid2 & Hu2 & Hamt2 & Hr2 & Ha2 & Hc2 & _ & E2)]];
    rewrite E2; try (intros Hres; discriminate Hres).
  intros Hres. injection Hres as <-.
  change (db_of (?x, ?d, ?e)) with d.
  assert (i2 = i) by congruence. subst i2.
  rewrite Hu' in Hu2. assert (u2 = u) by congruence. subst u2.
  assert (a2 = a) by congruence. subst a2.
  assert (r2 = r) by congruence. subst r2.
  assert (a2' = a') by congruence. subst a2'.
  assert (c2' = c') by congruence. subst c2'.
  pose proof (next_id_fresh (transactions db')) as Hfresh.
  assert (Hne : next_id (transactions db) <> next_id (transactions db'))
    by (intros Heq; rewrite <- Heq, H1 in Hfresh; discriminate Hfresh).
  split; [exact Hne|]. exists a', c'. split.
  - unfold with_new_row at 1. cbn [transactions].
    rewrite lookup_insert_ne by (intros Heq; apply Hne; symmetry; exact Heq).
    exact H1.
  - apply lookup_insert_eq.
Qed.

Lemma create_twice_two_rows_witness :
  2 <> 3 /\
  exists a c,
    transactions
      (db_of (run (create_transaction (Some 1) (Some 8%float)) 4
                (db_of (run (create_transaction (Some 1) (Some 8%float)) 3 db0))))
      !! 2 = Some (mkTransaction a c (Some "pending") (Some 3) (Some 1)) /\
    transactions
      (db_of (run (create_transaction (Some 1) (Some 8%float)) 4
                (db_of (run (create_transaction (Some 1) (Some 8%float)) 3 db0))))
      !! 3 = Some (mkTransaction a c (Some "pending") (Some 4) (Some 1)).
Proof.
  apply (create_twice_two_rows 3 4 db0 (Some 1) (Some 8%float) 2 3); reflexivity.
Defined.

(** ** cancel_transaction and check_transaction *)


(** X6.  cancel and check agree: for an existing transaction, the status
    that cancel answers is the status a check that follows it reports,
    and that check changes nothing. *)
Theorem check_after_cancel now later db i t :
  transactions db !! i = Some t ->
  let o := run (cancel_transaction (Some i)) now db in
  exists s,
    result_of o = Ok (mkResponse (jsonify [("status", json_of_str s)]) 200) /\
    (s = Some "canceled" \/ (s = status t /\ s <> Some "pending")) /\
    run (check_transaction (Some i)) later (db_of o)
      = (Ok (mkResponse (jsonify [("transaction_id", JInt i);
                                  ("status", json_of_str s)]) 200),
         db_of o, []).
Proof.
  intros Hi o. subst o.
  destruct (decide (status t = Some "pending")) as [Hp|Hp].
  - rewrite (run_cancel_pending now db i t Hi Hp).
    exists (Some "canceled"). split; [reflexivity|]. split; [left; reflexivity|].
    change (db_of (?x, ?d, ?e)) with d.
    apply (run_check_found later _ i (set_status (Some "canceled") t)).
    apply lookup_insert_eq.
  - rewrite (run_cancel_other now db i t Hi Hp).
    exists (status t). split; [reflexivity|]. split; [right; auto|].
    change (db_of (?x, ?d, ?e)) with d.
    apply (run_check_found later db i t Hi).
Qed.

Lemma check_after_cancel_witness :
  exists s,
    result_of (run (cancel_transaction (Some 1)) 5 db1)
      = Ok (mkResponse (jsonify [("status", json_of_str s)]) 200) /\
    (s = Some "canceled" \/ (s = status tx0 /\ s <> Some "pending")) /\
    run (check_transaction (Some 1)) 6 (db_of (run (cancel_transaction (Some 1)) 5 db1))
      = (Ok (mkResponse (jsonify [("transaction_id", JInt 1);
                                  ("status", json_of_str s)]) 200),
         db_of (run (cancel_transaction (Some 1)) 5 db1), []).
Proof.
  apply (check_after_cancel 5 6 db1 1 tx0). reflexivity.
Defined.

(** ** Any sequence of operations *)

(** X7.  No sequence of create, cancel, check and sweep operations changes
    the users table, removes a transaction, or changes the amount,
    commission, created_at or user_id of a transaction. *)
Theorem operations_keep_columns S ops db :
  users (exec_all S ops db) = users db /\
  forall i t, transactions db !! i = Some t ->
    exists t', transactions (exec_all S ops db) !! i = Some t' /\
      amount t' = amount t /\ commission t' = commission t /\
      created_at t' = created_at t /\ user_id t' = user_id t.
Proof.
  split; [apply exec_all_users|].
  intros i t Hi. destruct (exec_all_row S ops db i t Hi) as (t' & H' & Hl).
  exists t'. split; [exact H'|].
  destruct Hl as [->|(_ & [->| ->])]; repeat split; reflexivity.
Qed.

Lemma operations_keep_columns_witness :
  exists t',
    transactions (exec_all (mkSetup datetime_module true)
                    [(OpCreate (Some 1) (Some 8%float), 3);
                     (OpSweep online, 5000 * second);
                     (OpCancel (Some 1), 5001 * second)] db1) !! 1 = Some t' /\
    amount t' = 100%float /\ commission t' = 25%float /\
    created_at t' = Some 0 /\ user_id t' = Some 1.
Proof.
  apply (proj2 (operations_keep_columns (mkSetup datetime_module true)
                  [(OpCreate (Some 1) (Some 8%float), 3);
                   (OpSweep online, 5000 * second);
                   (OpCancel (Some 1), 5001 * second)] db1) 1 tx0).
  reflexivity.
Defined.

(** X8.  cancel, check and the sweep never add or remove a transaction:
    after any operation other than create the set of transaction keys is
    the one before. *)
Theorem only_create_adds_rows S op now db :
  (forall u a, op <> OpCreate u a) ->
  dom (transactions (exec S op now db)) = dom (transactions db).
Proof.
  intros Hop. apply set_eq. intros i. rewrite !elem_of_dom. split.
  - intros [t' H'].
    destruct (transactions db !! i) as [t|] eqn:Hi; [eauto|].
    destruct (exec_new_row S op now db i t' Hi H') as ((u & a & ->) & _).
    exfalso. exact (Hop u a eq_refl).
  - intros [t Hi]. destruct (exec_row S op now db i t Hi) as (t' & H' & _). eauto.
Qed.

Lemma only_create_adds_rows_witness :
  dom (transactions (exec (mkSetup datetime_module true) (OpSweep online)
                       (5000 * second) db1))
  = dom (transactions db1).
Proof.
  apply (only_create_adds_rows (mkSetup datetime_module true) (OpSweep online)
           (5000 * second) db1).
  intros u a. discriminate.
Defined.

(** X9.  The module as written never produces the status expired: after
    any sequence of create, cancel, check and check_pending_transactions
    runs, a transaction that is expired was stored as that same row
    before the sequence began. *)
Theorem expired_unreachable_as_written ops : forall db i t',
  transactions (exec_all source_setup ops db) !! i = Some t' ->
  status t' = Some "expired" ->
  transactions db !! i = Some t'.
Proof.
  induction ops as [|[op now] rest IH]; intros db i t' H' He; simpl in H';
    [exact H'|].
  pose proof (IH _ i t' H' He) as H1.
  destruct (transactions db !! i) as [t|] eqn:Hi.
  - destruct (exec_row source_setup op now db i t Hi) as (t1 & Ht1 & Hc).
    rewrite H1 in Ht1. injection Ht1 as <-.
    destruct Hc as [->|[(_ & -> & _)|(_ & _ & net & ->)]].
    + reflexivity.
    + discriminate He.
    + simpl in H1.
      change (run (sweep source_setup net) now db)
        with (run (check_pending_transactions net) now db) in H1.
      rewrite check_pending_transactions_raises in H1.
      change (db_of (?x, ?d, ?e)) with d in H1. congruence.
  - destruct (exec_new_row source_setup op now db i t' Hi H1) as (_ & _ & Hs & _).
    rewrite Hs in He. discriminate He.
Qed.

Lemma expired_unreachable_as_written_witness :
  transactions db1 !! 4 = Some tx_expired.
Proof.
  apply (expired_unreachable_as_written
           [(OpSweep online, 5000 * second); (OpCancel (Some 1), 5001 * second)]
           db1 4 tx_expired); reflexivity.
Defined.

(** ** The sweep *)

(** X10.  Under any resolution of the names the task uses, a run leaves
    untouched every transaction that is not older than 900 seconds, the
    bound included, and every transaction without a created_at. *)
Theorem sweep_keeps_fresh_rows S net now db i t :
  transactions db !! i = Some t ->
  (forall c, created_at t = Some c -> now - c <= 900 * second) ->
  transactions (db_of (run (sweep S net) now db)) !! i = Some t.
Proof.
  intros Hi Hfresh.
  destruct (sweep_rows S net now db i) as [E|(t0 & Ht0 & _ & (c & Hc & Hgt) & _)].
  - rewrite E. exact Hi.
  - rewrite Hi in Ht0. injection Ht0 as <-.
    specialize (Hfresh c Hc). lia.
Qed.

Lemma sweep_keeps_fresh_rows_witness :
  transactions (db_of (run (sweep (mkSetup datetime_module true) online)
                           (900 * second) db0)) !! 1 = Some tx0 /\
  transactions (db_of (run (sweep (mkSetup datetime_module true) online)
                           (900 * second + 1) db0)) !! 1
    = Some (set_status (Some "expired") tx0).
Proof.
  split.
  - apply (sweep_keeps_fresh_rows (mkSetup datetime_module true) online
             (900 * second) db0 1 tx0); [reflexivity|].
    intros c Hc. injection Hc as <-. unfold second. lia.
  - vm_compute. reflexivity.
Defined.

(** ** The trace of the loop *)

Lemma notified_app evs1 evs2 :
  notified (evs1 ++ evs2) = notified evs1 ++ notified evs2.
Proof. apply omap_app. Qed.

Lemma traced_refl now ids w : traced now ids w w.
Proof.
  exists []. split; [symmetry; apply app_nil_r|].
  split; [apply sublist_nil_l|].
  intros i Hi. apply elem_of_nil in Hi. contradiction.
Qed.

Lemma traced_body S net now t w r w' :
  idle w -> expire_if_stale S net now t w = (r, w') -> traced now [t] w w'.
Proof.
  intros Hw H.
  destruct (expire_if_stale_spec S net now t w r w' Hw H)
    as [->|(row & Hrow & Hst & Hcase)]; [apply traced_refl|].
  simpl in Hcase.
  destruct Hcase as [->|(uid & u & url & _ & _ & _ & ->)].
  - eexists [_]. split; [reflexivity|].
    split; [apply sublist_nil_l|].
    intros i Hi. apply elem_of_nil in Hi. contradiction.
  - eexists [_; _]. split; [simpl; rewrite <- app_assoc; reflexivity|].
    split; [reflexivity|].
    intros i Hi. apply list_elem_of_singleton in Hi as ->. eauto.
Qed.

Lemma traced_trans now ids1 ids2 w w1 w2 :
  sweeps now ids1 w w1 ->
  traced now ids1 w w1 -> traced now ids2 w1 w2 -> traced now (ids1 ++ ids2) w w2.
Proof.
  intros (_ & _ & Hr & _) (evs1 & Ht1 & Hs1 & Hn1) (evs2 & Ht2 & Hs2 & Hn2).
  exists (evs1 ++ evs2). split; [rewrite Ht2, Ht1, app_assoc; reflexivity|].
  split; [rewrite notified_app; apply sublist_app; assumption|].
  intros i Hi. rewrite notified_app in Hi. apply elem_of_app in Hi as [Hi|Hi].
  - apply Hn1, Hi.
  - destruct (Hn2 i Hi) as (row1 & Hrow1 & c & Hc & Hgt).
    destruct (Hr i) as [E|(_ & t0 & E0 & Hst0 & E1)].
    + exists row1. split; [congruence|]. exists c. auto.
    + exists t0. split; [exact E0 | exact Hst0].
Qed.

Lemma sweep_loop_traced S net now ids : forall w r w',
  idle w -> sweep_loop S net now ids w = (r, w') -> traced now ids w w'.
Proof.
  induction ids as [|t rest IH]; intros w r w' Hw H; simpl in H.
  - unfold ret in H. injection H as _ <-. apply traced_refl.
  - apply bind_inv in H as [(a & w1 & Hb & Hl)|(e & Hb & _)].
    + pose proof (sweeps_body S net now t w (Ok a) w1 Hw Hb) as Hs1.
      apply (traced_trans now [t] rest w w1 w' Hs1).
      * apply (traced_body S net now t w (Ok a) w1 Hw Hb).
      * apply (IH w1 r w'); [apply Hs1 | exact Hl].
    + pose proof (sweeps_body S net now t w (Raise e) w' Hw Hb) as Hs1.
      apply (traced_trans now [t] rest w w' w' Hs1).
      * apply (traced_body S net now t w (Raise e) w' Hw Hb).
      * apply traced_refl.
Qed.

Lemma run_sweep_traced S net now db :
  notified (trace_of (run (sweep S net) now db)) `sublist_of` pending_ids db /\
  forall i, i ∈ notified (trace_of (run (sweep S net) now db)) ->
    exists row, transactions db !! i = Some row /\ stale now row.
Proof.
  assert (Hnone : notified [] `sublist_of` pending_ids db /\
                  forall i, i ∈ notified [] ->
                    exists row, transactions db !! i = Some row /\ stale now row).
  { split; [apply sublist_nil_l|].
    intros i Hi. apply elem_of_nil in Hi. contradiction. }
  destruct S as [g rel]. unfold run, sweep. simpl.
  destruct g; try exact Hnone.
  step by reflexivity. step by reflexivity. step by reflexivity.
  erewrite bind_ok; cycle 1.
  { unfold query_pending. rewrite view_idle by apply idle_start. reflexivity. }
  simpl. fold (pending_ids db).
  destruct (sweep_loop _ net now (pending_ids db) (mkWorld now db empty_session []))
    as [r w'] eqn:E.
  apply sweep_loop_traced in E as (evs & Ht & Hs & Hn); [|apply idle_start].
  unfold db_of, trace_of. simpl in *. rewrite Ht. auto.
Qed.

(** X11.  Under any resolution of the names the task uses and any network
    behaviour, every request of one run carries the body
    {transaction_id, status: "expired"}, no two requests of the run name
    the same transaction, and each names a transaction that was pending
    and older than 900 seconds when the run began. *)
Theorem sweep_notifies_once S net now db :
  (forall url payload,
     EvPost url payload ∈ trace_of (run (sweep S net) now db) ->
     exists i, payload = expired_payload i /\
               i ∈ notified (trace_of (run (sweep S net) now db))) /\
  NoDup (notified (trace_of (run (sweep S net) now db))) /\
  forall i, i ∈ notified (trace_of (run (sweep S net) now db)) ->
    exists t, transactions db !! i = Some t /\ status t = Some "pending" /\
              stale now t.
Proof.
  destruct (run_sweep_traced S net now db) as (Hsub & Hn).
  split; [|split].
  - intros url payload Hin.
    apply list_elem_of_split in Hin as (pre & post & E).
    destruct (run_sweep_spec S net now db) as (_ & _ & Ha).
    destruct (Ha pre url payload post E) as (_ & _ & i & _ & _ & _ & _ & -> & _).
    exists i. split; [reflexivity|].
    rewrite E, notified_app. apply elem_of_app. right. apply list_elem_of_here.
  - eapply sublist_NoDup; [|exact Hsub].
    unfold pending_ids. rewrite merge_sort_Permutation.
    apply NoDup_fst_map_to_list.
  - intros i Hi. destruct (Hn i Hi) as (row & Hrow & Hst).
    exists row. split; [exact Hrow|]. split; [|exact Hst].
    assert (Hin : i ∈ pending_ids db).
    { eapply elem_of_sublist; eassumption. }
    apply elem_of_pending_ids in Hin as (t0 & Ht0 & Hp). congruence.
Qed.

Lemma sweep_notifies_once_witness :
  notified (trace_of (run (sweep (mkSetup datetime_module true) online)
                          (901 * second) db0)) = [1] /\
  exists t, transactions db0 !! 1 = Some t /\ status t = Some "pending" /\
            stale (901 * second) t.
Proof.
  split; [vm_compute; reflexivity|].
  apply (proj2 (proj2 (sweep_notifies_once (mkSetup datetime_module true) online
                         (901 * second) db0)) 1).
  vm_compute. apply list_elem_of_singleton. reflexivity.
Defined.

(** ** create_admin *)


